(** * documenso: team e-mail verification, teams data table, teams layout

    A shallow embedding of

    - [addTeamEmailVerification], [sendTeamEmailVerificationEmail] and
      [generateTeamEmailVerificationToken]
      (apps/web/src/components/(teams)/tables/teams-data-table.tsx, second half),
    - the data flow of the [TeamsDataTable] component (same file, first half),
    - [AuthenticatedTeamsDashboardLayout] (apps/web/src/app/(teams)/layout.tsx).

    The asynchronous TypeScript code is sequential ([await] at every call), so
    it is written in a state-and-exception monad over a [World] that holds the
    database, the journal of calls made to the outside (ORM, clock, id
    generator, mailer, console) and the positions in the clock and entropy
    streams.  What the workflow imports from outside the file (constants, the
    template renderer, the faults of the database and of the mail transport)
    is a field of the environment record [Env]; the schema of the table and
    the session calls of the layout are parameters of their own models. *)

From stdpp Require Import base option list strings gmap.
From Stdlib Require Import ZArith Lia Ascii.

(** ** JavaScript values, results and errors *)

(** The values that can sit in [err.meta.target] or in a query input. *)
#[warnings="-register-all"]
Inductive JsVal : Type :=
| JUndefined
| JNull
| JBool (b : bool)
| JNum (n : Z)
| JStr (s : string)
| JArr (xs : list JsVal).

(** [z.string()] on one value. *)
Definition zod_string (v : JsVal) : option string :=
  match v with
  | JStr s => Some s
  | _ => None
  end.

(** [z.array(z.string()).safeParse(v)]: [Some data] is [{ success: true, data }],
    [None] is [{ success: false }]. *)
Definition zod_string_array_safeParse (v : JsVal) : option (list string) :=
  match v with
  | JArr xs => mapM zod_string xs
  | _ => None
  end.

(** [xs.includes(s)] on an array of strings. *)
Definition includes (s : string) (xs : list string) : bool :=
  existsb (String.eqb s) xs.

(** The members of [AppErrorCode] the file uses; the remaining members of the
    enum are kept apart by their name. *)
Inductive AppErrorCode : Type :=
| ALREADY_EXISTS
| INVALID_REQUEST
| OTHER_CODE (name : string).

(** What can be thrown.  [meta] is [None] when [err.meta] is undefined. *)
Inductive Err : Type :=
| AppError (code : AppErrorCode) (message : string)
| PrismaClientKnownRequestError (code : string) (meta : option (gmap string JsVal))
| OtherError (name message : string).

(** [err.meta?.target] *)
Definition meta_target (meta : option (gmap string JsVal)) : JsVal :=
  match meta with
  | None => JUndefined
  | Some m => default JUndefined (m !! "target")
  end.

Inductive Res (A : Type) : Type :=
| Ok (a : A)
| Throw (e : Err).
Arguments Ok {A} a.
Arguments Throw {A} e.

Definition is_ok {A} (r : Res A) : bool :=
  match r with
  | Ok _ => true
  | Throw _ => false
  end.

(** Truthiness of a value that is an object or [null]. *)
Definition truthy {A} (o : option A) : bool :=
  match o with
  | Some _ => true
  | None => false
  end.

(** ** The database *)

(** A member role is the string of the Prisma enum. *)
Definition Role : Type := string.

Record Team : Type := mkTeam {
  team_id : Z;
  team_name : string;
  team_url : string
}.

Record TeamMember : Type := mkTeamMember {
  member_teamId : Z;
  member_userId : Z;
  member_role : Role
}.

Record TeamEmail : Type := mkTeamEmail {
  te_teamId : Z;
  te_name : string;
  te_email : string;
  te_createdAt : Z
}.

(** Dates are milliseconds since the epoch. *)
Record TeamEmailVerification : Type := mkTeamEmailVerification {
  tev_expiresAt : Z;
  tev_token : string;
  tev_createdAt : Z;
  tev_email : string;
  tev_name : string;
  tev_teamId : Z
}.

Record DB : Type := mkDB {
  teams : list Team;
  teamMembers : list TeamMember;
  teamEmails : list TeamEmail;
  teamEmailVerifications : list TeamEmailVerification
}.

(** The row [findFirstOrThrow] returns with
    [include: { email: true, emailVerification: true }]. *)
Record TeamWithEmails : Type := mkTeamWithEmails {
  the_team : Team;
  team_email : option TeamEmail;
  team_emailVerification : option TeamEmailVerification
}.

(** ** Mail *)

(** The props of [createElement(ConfirmTeamEmailTemplate, props)]. *)
Record ConfirmTeamEmailTemplate : Type := mkTemplate {
  tpl_assetBaseUrl : string;
  tpl_baseUrl : string;
  tpl_teamName : string;
  tpl_teamUrl : string;
  tpl_token : string
}.

(** The argument of [mailer.sendMail]. *)
Record Mail : Type := mkMail {
  mail_to : string;
  from_name : string;
  from_address : string;
  subject : string;
  html : string;
  text : string
}.

(** ** Calls to the outside, in the order they are made *)

Inductive Call : Type :=
| TxBegin
| TxCommit
| TxRollback
| TeamFindFirstOrThrow (teamId userId : Z) (roles : list Role)
| TeamEmailFindFirst (email : string)
| TeamEmailVerificationCreate (data : TeamEmailVerification)
| DateNow (t : Z)
| Nanoid (size : nat) (id : string)
| SendMail (m : Mail)
| ConsoleError (e : Err).

Record World : Type := mkWorld {
  db : DB;
  calls : list Call;
  ticks : nat;
  drawn : nat
}.

(** What the two files import. *)
Record Env : Type := mkEnv {
  (** successive readings of the system clock, in milliseconds *)
  clock : nat -> Z;
  (** the bytes the random generator hands to nanoid *)
  entropy : nat -> Z;
  (** what [findFirstOrThrow] throws when no row matches *)
  notFound : Err;
  (** whether the database refuses an insert (a constraint of the schema) *)
  create_fault : DB -> TeamEmailVerification -> option Err;
  (** whether the mail transport fails on a message *)
  mail_fault : Mail -> option Err;
  (** [render(template)] and [render(template, { plainText: true })] *)
  render : ConfirmTeamEmailTemplate -> bool -> string;
  (** [TEAM_MEMBER_ROLE_PERMISSIONS_MAP['MANAGE_TEAM']] *)
  MANAGE_TEAM : list Role;
  WEBAPP_BASE_URL : string;
  FROM_NAME : string;
  FROM_ADDRESS : string;
  (** [process.env.NEXT_PUBLIC_WEBAPP_URL] *)
  NEXT_PUBLIC_WEBAPP_URL : option string
}.

(** ** The monad *)

Definition M (A : Type) : Type := World -> Res A * World.

Definition ret {A} (a : A) : M A := fun w => (Ok a, w).

Definition throw {A} (e : Err) : M A := fun w => (Throw e, w).

Definition bind {A B} (m : M A) (k : A -> M B) : M B :=
  fun w =>
    match m w with
    | (Ok a, w') => k a w'
    | (Throw e, w') => (Throw e, w')
    end.

Notation "'let!' x ':=' m 'in' k" := (bind m (fun x => k))
  (at level 10, x name, m at level 100, k at level 200).
Notation "m ';;' k" := (bind m (fun _ => k))
  (at level 100, k at level 200, right associativity).

Definition log (c : Call) (w : World) : World :=
  mkWorld (db w) (calls w ++ [c]) (ticks w) (drawn w).

Definition with_db (d : DB) (w : World) : World :=
  mkWorld d (calls w) (ticks w) (drawn w).

(** [try { body } catch (err) { handler }] *)
Definition try_catch {A} (body : M A) (handler : Err -> M A) : M A :=
  fun w =>
    match body w with
    | (Ok a, w') => (Ok a, w')
    | (Throw e, w') => handler e w'
    end.

(** [console.error(err)] *)
Definition console_error (e : Err) : M unit :=
  fun w => (Ok tt, log (ConsoleError e) w).

(** ** nanoid *)

(** nanoid's [urlAlphabet]: 64 URL-safe characters. *)
Definition urlAlphabet : string :=
  "useandom-26T198340PX75pxJACKVERYMINDBUSHWOLF_GQZbfghjklqvwyzrict".

(** [urlAlphabet[byte & 63]] *)
Definition alphabet_char (byte : Z) : ascii :=
  default "-"%char (String.get (Z.to_nat (Z.land byte 63)) urlAlphabet).

(** The id nanoid builds from the bytes of its pool: one character a byte. *)
Definition nanoid_of_bytes (bytes : list Z) : string :=
  String.string_of_list_ascii (map alphabet_char bytes).

(** ** The operations on the world *)

Section TeamEmailVerificationFlow.

Variable env : Env.

(** [Date.now()], behind both [DateTime.now()] and [new Date()]. *)
Definition date_now : M Z :=
  fun w =>
    let t := clock env (ticks w) in
    (Ok t, mkWorld (db w) (calls w ++ [DateNow t]) (S (ticks w)) (drawn w)).

(** [nanoid(size)] *)
Definition nanoid (size : nat) : M string :=
  fun w =>
    let id := nanoid_of_bytes (map (entropy env) (seq (drawn w) size)) in
    (Ok id, mkWorld (db w) (calls w ++ [Nanoid size id]) (ticks w) (drawn w + size)).

(** [members: { some: { userId, role: { in: roles } } }] on team [t]. *)
Definition has_member_with_role (d : DB) (t : Team) (uid : Z) (roles : list Role) : bool :=
  existsb
    (fun m =>
       Z.eqb (member_teamId m) (team_id t)
       && Z.eqb (member_userId m) uid
       && existsb (String.eqb (member_role m)) roles)
    (teamMembers d).

(** The [where] of the team lookup. *)
Definition team_where (d : DB) (tid uid : Z) (roles : list Role) (t : Team) : bool :=
  Z.eqb (team_id t) tid && has_member_with_role d t uid roles.

(** The two relations of the [include]. *)
Definition include_emails (d : DB) (t : Team) : TeamWithEmails :=
  mkTeamWithEmails t
    (List.find (fun e => Z.eqb (te_teamId e) (team_id t)) (teamEmails d))
    (List.find (fun v => Z.eqb (tev_teamId v) (team_id t)) (teamEmailVerifications d)).

(** [tx.team.findFirstOrThrow({ where, include })] *)
Definition tx_team_findFirstOrThrow (tid uid : Z) (roles : list Role) : M TeamWithEmails :=
  fun w =>
    let w' := log (TeamFindFirstOrThrow tid uid roles) w in
    match List.find (team_where (db w) tid uid roles) (teams (db w)) with
    | Some t => (Ok (include_emails (db w) t), w')
    | None => (Throw (notFound env), w')
    end.

(** [tx.teamEmail.findFirst({ where: { email } })] *)
Definition tx_teamEmail_findFirst (email : string) : M (option TeamEmail) :=
  fun w =>
    (Ok (List.find (fun e => String.eqb (te_email e) email) (teamEmails (db w))),
     log (TeamEmailFindFirst email) w).

Definition insert_verification (v : TeamEmailVerification) (d : DB) : DB :=
  mkDB (teams d) (teamMembers d) (teamEmails d) (teamEmailVerifications d ++ [v]).

(** [tx.teamEmailVerification.create({ data })] *)
Definition tx_teamEmailVerification_create (v : TeamEmailVerification) : M unit :=
  fun w =>
    let w' := log (TeamEmailVerificationCreate v) w in
    match create_fault env (db w) v with
    | Some e => (Throw e, w')
    | None => (Ok tt, with_db (insert_verification v (db w)) w')
    end.

(** [mailer.sendMail(message)] *)
Definition mailer_sendMail (m : Mail) : M unit :=
  fun w =>
    let w' := log (SendMail m) w in
    match mail_fault env m with
    | Some e => (Throw e, w')
    | None => (Ok tt, w')
    end.

(** [prisma.$transaction(async (tx) => body)]: the writes of [body] are kept
    when it returns and undone when it throws; what left the process (the
    journal, the clock, the entropy) stays.  A run is one call on its own, to
    its end: a commit that fails, a read that fails and a second transaction
    interleaved with this one are outside the model. *)
Definition transaction {A} (body : M A) : M A :=
  fun w =>
    match body (log TxBegin w) with
    | (Ok a, w') => (Ok a, log TxCommit w')
    | (Throw e, w') => (Throw e, log TxRollback (with_db (db w) w'))
    end.

(** ** generateTeamEmailVerificationToken *)

Record VerificationToken : Type := mkToken {
  expiresAt : Z;
  token : string;
  createdAt : Z
}.

(** [{ minute: 10 }] as a luxon duration, in milliseconds. *)
Definition ten_minutes : Z := 10 * 60 * 1000.

Definition generateTeamEmailVerificationToken : M VerificationToken :=
  let! now := date_now in
  let! id := nanoid 32 in
  let! created := date_now in
  ret (mkToken (now + ten_minutes)%Z id created).

(** ** sendTeamEmailVerificationEmail *)

(** [a || b] on an environment variable: undefined and the empty string are falsy. *)
Definition or_default (a : option string) (b : string) : string :=
  match a with
  | Some (String c s) => String c s
  | _ => b
  end.

Definition mail_subject (teamName : string) : string :=
  "A request to use your email has been initiated by " +:+ teamName +:+ " on Documenso".

Definition sendTeamEmailVerificationEmail
    (email tok teamName teamUrl : string) : M unit :=
  let assetBaseUrl := or_default (NEXT_PUBLIC_WEBAPP_URL env) "http://localhost:3000" in
  let template := mkTemplate assetBaseUrl (WEBAPP_BASE_URL env) teamName teamUrl tok in
  mailer_sendMail
    (mkMail email (FROM_NAME env) (FROM_ADDRESS env) (mail_subject teamName)
       (render env template false) (render env template true)).

(** ** addTeamEmailVerification *)

Record TeamEmailData : Type := mkData {
  email : string;
  name : string
}.

Record AddTeamEmailVerificationOptions : Type := mkOptions {
  userId : Z;
  teamId : Z;
  data : TeamEmailData
}.

Definition email_taken : Err :=
  AppError ALREADY_EXISTS "Email already taken by another team.".

Definition already_has_email : Err :=
  AppError INVALID_REQUEST "Team already has an email or existing email verification.".

(** The callback handed to [prisma.$transaction]. *)
Definition transaction_body (o : AddTeamEmailVerificationOptions) : M unit :=
  let! team := tx_team_findFirstOrThrow (teamId o) (userId o) (MANAGE_TEAM env) in
  if truthy (team_email team) || truthy (team_emailVerification team)
  then throw already_has_email
  else
    let! existingTeamEmail := tx_teamEmail_findFirst (email (data o)) in
    match existingTeamEmail with
    | Some _ => throw email_taken
    | None =>
        let! tok := generateTeamEmailVerificationToken in
        tx_teamEmailVerification_create
          (mkTeamEmailVerification (expiresAt tok) (token tok) (createdAt tok)
             (email (data o)) (name (data o)) (teamId o));;
        sendTeamEmailVerificationEmail (email (data o)) (token tok)
          (team_name (the_team team)) (team_url (the_team team))
    end.

(** [err.code === 'P2002' && target.success && target.data.includes('email')] *)
Definition is_email_conflict (code : string) (meta : option (gmap string JsVal)) : bool :=
  String.eqb code "P2002"
  && match zod_string_array_safeParse (meta_target meta) with
     | Some data => includes "email" data
     | None => false
     end.

(** The [catch (err)] block. *)
Definition on_error (err : Err) : M unit :=
  console_error err;;
  match err with
  | PrismaClientKnownRequestError code meta =>
      if is_email_conflict code meta then throw email_taken else throw err
  | _ => throw err
  end.

Definition addTeamEmailVerification (o : AddTeamEmailVerificationOptions) : M unit :=
  try_catch (transaction (transaction_body o)) on_error.

End TeamEmailVerificationFlow.

(** ** The teams data table *)

Module TeamsDataTable.

(** The three fields the component reads off the parsed search params. *)
Record ParsedSearchParams : Type := mkParsed {
  query : JsVal;
  page : JsVal;
  perPage : JsVal
}.

(** [URLSearchParams]: the name/value pairs in order. *)
Definition URLSearchParams : Type := list (string * string).

(** What the hooks hand to one render. *)
Record Hooks : Type := mkHooks {
  searchParams : option URLSearchParams;
  pathname : option string;
  debouncedSearchQuery : string
}.

(** What a render or a handler asks of the outside. *)
Inductive UiCall : Type :=
| FindTeamsQuery (input : gmap string JsVal)
| UpdateSearchParams (params : gmap string JsVal)
| RouterPush (path : string) (params : URLSearchParams).

(** [Object.fromEntries(entries)]: a later pair overrides an earlier one. *)
Definition fromEntries (entries : list (string * string)) : gmap string string :=
  foldl (fun m kv => <[kv.1 := kv.2]> m) ∅ entries.

(** [params.delete(name)] *)
Definition usp_delete (name : string) (params : URLSearchParams) : URLSearchParams :=
  List.filter (fun kv => negb (String.eqb kv.1 name)) params.

(** [params.set(name, value)]: the first pair of that name takes the value and
    the others go; with no such pair, one is appended. *)
Fixpoint usp_set (name value : string) (params : URLSearchParams) : URLSearchParams :=
  match params with
  | [] => [(name, value)]
  | kv :: rest =>
      if String.eqb kv.1 name
      then (name, value) :: usp_delete name rest
      else kv :: usp_set name value rest
  end.

(** [s === ''] *)
Definition is_empty (s : string) : bool :=
  match s with
  | EmptyString => true
  | String _ _ => false
  end.

Section Component.

(** [ZBaseTableSearchParamsSchema.parse], [None] when it throws. *)
Variable ZBaseTableSearchParamsSchema_parse : gmap string string -> option ParsedSearchParams.

Definition parsedSearchParams (h : Hooks) : option ParsedSearchParams :=
  ZBaseTableSearchParamsSchema_parse (fromEntries (default [] (searchParams h))).

(** The first argument of [trpc.team.findTeams.useQuery]. *)
Definition findTeams_input (p : ParsedSearchParams) : gmap string JsVal :=
  <["term" := query p]> (<["page" := page p]> (<["perPage" := perPage p]> ∅)).

(** The query a render issues; the render throws when the parse does. *)
Definition TeamsDataTable (h : Hooks) : option (list UiCall) :=
  match parsedSearchParams h with
  | Some p => Some [FindTeamsQuery (findTeams_input p)]
  | None => None
  end.

End Component.

Definition onPaginationChange (pg pp : Z) : list UiCall :=
  [UpdateSearchParams (<["page" := JNum pg]> (<["perPage" := JNum pp]> ∅))].

(** The effect that follows the debounced search box. *)
Definition search_effect (h : Hooks) : list UiCall :=
  match pathname h with
  | Some (String c s) =>
      let params := default [] (searchParams h) in
      let params := usp_set "query" (debouncedSearchQuery h) params in
      let params :=
        if is_empty (debouncedSearchQuery h) then usp_delete "query" params else params in
      [RouterPush (String c s) params]
  | _ => []
  end.

(** What the user can do on the table that reaches the outside. *)
Inductive Interaction : Type :=
| SearchInput
| PaginationChange (pg pp : Z).

Definition interact (h : Hooks) (i : Interaction) : list UiCall :=
  match i with
  | SearchInput => search_effect h
  | PaginationChange pg pp => onPaginationChange pg pp
  end.

End TeamsDataTable.

(** ** The teams dashboard layout *)

Module Layout.

Record Session : Type := mkSession {
  session_user_id : Z
}.

Inductive LayoutCall : Type :=
| GetServerSession
| Redirect (url : string)
| GetRequiredServerComponentSession
| GetTeams (userId : Z).

Section Page.

Variables User Teams : Type.

Inductive Outcome : Type :=
| Rendered (session : Session) (user : User) (teams : Teams)
| Redirected (url : string)
| Rejected (e : Err).

Record LayoutEnv : Type := mkLayoutEnv {
  getServerSession : option Session;
  getRequiredServerComponentSession : Res User;
  getTeams : Z -> Res Teams;
  (** which of two rejections [Promise.all] sees first *)
  teams_reject_first : bool
}.

(** [Promise.all([a, b])] over two promises already started. *)
Definition promise_all (first_b : bool) (a : Res User) (b : Res Teams) : Res (User * Teams) :=
  match a, b with
  | Ok u, Ok t => Ok (u, t)
  | Throw e, Ok _ => Throw e
  | Ok _, Throw e => Throw e
  | Throw ea, Throw eb => Throw (if first_b then eb else ea)
  end.

(** [redirect] throws, so nothing after it runs.  [getServerSession env] is
    what the session call resolved to; a session call that itself rejects is
    outside the model. *)
Definition AuthenticatedTeamsDashboardLayout (env : LayoutEnv) : list LayoutCall * Outcome :=
  match getServerSession env with
  | None => ([GetServerSession; Redirect "/signin"], Redirected "/signin")
  | Some session =>
      let started :=
        [GetServerSession; GetRequiredServerComponentSession;
         GetTeams (session_user_id session)] in
      match promise_all (teams_reject_first env)
              (getRequiredServerComponentSession env)
              (getTeams env (session_user_id session)) with
      | Ok (user, teams) => (started, Rendered session user teams)
      | Throw e => (started, Rejected e)
      end
  end.

End Page.

Arguments Rendered {User Teams}.
Arguments Redirected {User Teams}.
Arguments Rejected {User Teams}.
Arguments mkLayoutEnv {User Teams}.
Arguments getServerSession {User Teams}.
Arguments getRequiredServerComponentSession {User Teams}.
Arguments getTeams {User Teams}.
Arguments AuthenticatedTeamsDashboardLayout {User Teams}.

End Layout.

(** ** The vocabulary of the properties *)

(** User [uid] is a member of team [tid] with one of [roles]. *)
Definition is_manager (d : DB) (uid tid : Z) (roles : list Role) : Prop :=
  exists m, In m (teamMembers d) /\ member_teamId m = tid /\ member_userId m = uid
            /\ In (member_role m) roles.

(** Team [tid] exists and [uid] may manage it. *)
Definition authorized (d : DB) (uid tid : Z) (roles : list Role) : Prop :=
  (exists t, In t (teams d) /\ team_id t = tid) /\ is_manager d uid tid roles.

Definition team_has_email (d : DB) (tid : Z) : Prop :=
  exists e, In e (teamEmails d) /\ te_teamId e = tid.

Definition team_has_verification (d : DB) (tid : Z) : Prop :=
  exists v, In v (teamEmailVerifications d) /\ tev_teamId v = tid.

Definition email_in_use (d : DB) (address : string) : Prop :=
  exists e, In e (teamEmails d) /\ te_email e = address.

(** What the [catch] block throws for an error [e] of the transaction. *)
Definition rethrown (e : Err) : Err :=
  match e with
  | PrismaClientKnownRequestError code meta =>
      if is_email_conflict code meta then email_taken else e
  | _ => e
  end.

Inductive CallKind : Type :=
| KTxBegin | KTxCommit | KTxRollback | KFindTeam | KFindTeamEmail | KCreate
| KDateNow | KNanoid | KSendMail | KConsoleError.

Definition kind (c : Call) : CallKind :=
  match c with
  | TxBegin => KTxBegin
  | TxCommit => KTxCommit
  | TxRollback => KTxRollback
  | TeamFindFirstOrThrow _ _ _ => KFindTeam
  | TeamEmailFindFirst _ => KFindTeamEmail
  | TeamEmailVerificationCreate _ => KCreate
  | DateNow _ => KDateNow
  | Nanoid _ _ => KNanoid
  | SendMail _ => KSendMail
  | ConsoleError _ => KConsoleError
  end.

(** The steps of the workflow and the calls each one makes. *)
Inductive Step : Type :=
| PermissionCheck | UniquenessCheck | TokenMint | CreateRecord | ConfirmationEmail.

Definition step_calls (s : Step) : list CallKind :=
  match s with
  | PermissionCheck => [KFindTeam]
  | UniquenessCheck => [KFindTeamEmail]
  | TokenMint => [KDateNow; KNanoid; KDateNow]
  | CreateRecord => [KCreate]
  | ConfirmationEmail => [KSendMail]
  end.

Definition workflow : list Step :=
  [PermissionCheck; UniquenessCheck; TokenMint; CreateRecord; ConfirmationEmail].

(** How the journal of a call ends: commit, or rollback and the logged error. *)
Definition closing (ok : bool) : list CallKind :=
  if ok then [KTxCommit] else [KTxRollback; KConsoleError].

(** Every character of [s] is one of nanoid's alphabet. *)
Definition url_safe (s : string) : Prop :=
  Forall (fun c => exists i, (i < 64)%nat /\ String.get i urlAlphabet = Some c)
         (String.list_ascii_of_string s).

(** [needle] occurs in [s]. *)
Definition contains (s needle : string) : Prop :=
  exists before after, s = before +:+ needle +:+ after.

(** ** The values a run passes along *)

(** The token minted in world [w]. *)
Definition minted_token (env : Env) (w : World) : VerificationToken :=
  mkToken (clock env (ticks w) + ten_minutes)%Z
    (nanoid_of_bytes (map (entropy env) (seq (drawn w) 32)))
    (clock env (S (ticks w))).

(** The calls the mint makes. *)
Definition mint_calls (env : Env) (w : World) : list Call :=
  [DateNow (clock env (ticks w));
   Nanoid 32 (token (minted_token env w));
   DateNow (clock env (S (ticks w)))].

(** [{ ...token, email: data.email, name: data.name, teamId }] *)
Definition verification_of (o : AddTeamEmailVerificationOptions) (tok : VerificationToken)
  : TeamEmailVerification :=
  mkTeamEmailVerification (expiresAt tok) (token tok) (createdAt tok)
    (email (data o)) (name (data o)) (teamId o).

(** The template of the confirmation mail. *)
Definition template_of (env : Env) (tok teamName teamUrl : string) : ConfirmTeamEmailTemplate :=
  mkTemplate (or_default (NEXT_PUBLIC_WEBAPP_URL env) "http://localhost:3000")
    (WEBAPP_BASE_URL env) teamName teamUrl tok.

(** The confirmation mail. *)
Definition mail_of (env : Env) (address tok teamName teamUrl : string) : Mail :=
  mkMail address (FROM_NAME env) (FROM_ADDRESS env) (mail_subject teamName)
    (render env (template_of env tok teamName teamUrl) false)
    (render env (template_of env tok teamName teamUrl) true).

(** The team lookup of a call, as a pure function of the database. *)
Definition lookup_team (env : Env) (o : AddTeamEmailVerificationOptions) (d : DB) : option Team :=
  List.find (team_where d (teamId o) (userId o) (MANAGE_TEAM env)) (teams d).

(** A Prisma error with code P2002 whose target is an array of strings with 'email'. *)
Definition email_conflict (e : Err) : Prop :=
  exists meta targets,
    e = PrismaClientKnownRequestError "P2002" meta
    /\ meta_target meta = JArr (map JStr targets)
    /\ In "email" targets.

(** The query input carries a field besides the search term and the page. *)
Definition has_extra_field (input : gmap string JsVal) : Prop :=
  exists k, is_Some (input !! k) /\ k <> "term" /\ k <> "page" /\ k <> "perPage".

(** ** Sample data *)

Module Sample.

Definition sample_render (t : ConfirmTeamEmailTemplate) (plainText : bool) : string :=
  (if plainText then "text:" else "html:")
  +:+ tpl_baseUrl t +:+ "/team/verify/email/" +:+ tpl_token t.

(** A clock that advances 7 ms a reading, no database or transport fault. *)
Definition env : Env :=
  mkEnv (fun n => (1700000000000 + 7 * Z.of_nat n)%Z) (fun n => Z.of_nat (37 * n + 5))
    (PrismaClientKnownRequestError "P2025" None)
    (fun _ _ => None) (fun _ => None) sample_render
    ["ADMIN"; "MANAGER"] "https://app.documenso.com" "Documenso" "noreply@documenso.com" None.

Definition unique_violation : Err :=
  PrismaClientKnownRequestError "P2002" (Some (<["target" := JArr [JStr "email"]]> ∅)).

Definition smtp_down : Err := OtherError "Error" "connect ECONNREFUSED".

(** The same, with a database that refuses the insert. *)
Definition env_conflict : Env :=
  mkEnv (clock env) (entropy env) (notFound env)
    (fun _ _ => Some unique_violation) (mail_fault env) (render env)
    (MANAGE_TEAM env) (WEBAPP_BASE_URL env) (FROM_NAME env) (FROM_ADDRESS env)
    (NEXT_PUBLIC_WEBAPP_URL env).

(** The same, with a mail transport that is down. *)
Definition env_no_mail : Env :=
  mkEnv (clock env) (entropy env) (notFound env)
    (create_fault env) (fun _ => Some smtp_down) (render env)
    (MANAGE_TEAM env) (WEBAPP_BASE_URL env) (FROM_NAME env) (FROM_ADDRESS env)
    (NEXT_PUBLIC_WEBAPP_URL env).

Definition database : DB :=
  mkDB [mkTeam 1 "Acme" "acme"; mkTeam 2 "Beta" "beta"]
       [mkTeamMember 1 10 "ADMIN"; mkTeamMember 1 11 "MEMBER"; mkTeamMember 2 12 "MANAGER"]
       [mkTeamEmail 2 "Beta mail" "team@beta.io" 5] [].

Definition world : World := mkWorld database [] 0 0.

(** An admin of team 1 claims a free address. *)
Definition admin_claim : AddTeamEmailVerificationOptions :=
  mkOptions 10 1 (mkData "team@acme.io" "Acme mail").

(** A plain member of team 1 tries the same. *)
Definition member_claim : AddTeamEmailVerificationOptions :=
  mkOptions 11 1 (mkData "team@acme.io" "Acme mail").

(** An admin of team 1 claims the address of team 2. *)
Definition taken_claim : AddTeamEmailVerificationOptions :=
  mkOptions 10 1 (mkData "team@beta.io" "Acme mail").

(** The manager of team 2, which has an address already, claims another. *)
Definition second_claim : AddTeamEmailVerificationOptions :=
  mkOptions 12 2 (mkData "other@beta.io" "Beta mail").

End Sample.

Module TableSample.

Import TeamsDataTable.

(** The value of a string of decimal digits, [None] on any other string. *)
Fixpoint decimal (acc : Z) (s : string) : option Z :=
  match s with
  | EmptyString => Some acc
  | String c rest =>
      let n := Z.of_nat (nat_of_ascii c) in
      if (48 <=? n)%Z && (n <=? 57)%Z then decimal (10 * acc + (n - 48))%Z rest else None
  end.

Definition number_field (m : gmap string string) (k : string) : JsVal :=
  match m !! k with
  | Some (String c rest) =>
      match decimal 0 (String c rest) with
      | Some n => if (1 <=? n)%Z then JNum n else JUndefined
      | None => JUndefined
      end
  | _ => JUndefined
  end.

(** A schema with an optional string and two optional numbers of at least 1,
    each falling back to undefined. *)
Definition schema_parse (m : gmap string string) : option ParsedSearchParams :=
  Some (mkParsed (from_option JStr JUndefined (m !! "query"))
          (number_field m "page") (number_field m "perPage")).

(** /teams?query=acme&page=2&perPage=20 *)
Definition hooks : Hooks :=
  mkHooks (Some [("query", "acme"); ("page", "2"); ("perPage", "20")]) (Some "/teams") "beta".

End TableSample.

Module LayoutSample.

Import Layout.

Definition signed_out : LayoutEnv string (list Team) :=
  mkLayoutEnv None (Throw (OtherError "Error" "No session found"))
    (fun _ => Ok []) false.

Definition signed_in : LayoutEnv string (list Team) :=
  mkLayoutEnv (Some (mkSession 10)) (Ok "admin@acme.io")
    (fun uid => Ok (if Z.eqb uid 10 then [mkTeam 1 "Acme" "acme"] else [])) false.

End LayoutSample.

(** ** Further vocabulary *)

(** The calls a run added to the journal of [w]. *)
Definition journal_since (w w' : World) : list Call :=
  drop (length (calls w)) (calls w').

(** No team has two pending verifications, and none has one beside an e-mail. *)
Definition claims_consistent (d : DB) : Prop :=
  NoDup (map tev_teamId (teamEmailVerifications d))
  /\ forall v, In v (teamEmailVerifications d) -> ~ team_has_email d (tev_teamId v).

Definition is_mail (c : Call) : bool :=
  match c with
  | SendMail _ => true
  | _ => false
  end.

Definition is_create (c : Call) : bool :=
  match c with
  | TeamEmailVerificationCreate _ => true
  | _ => false
  end.

(** A database in which team 3 already waits for its verification. *)
Definition busy_database : DB :=
  mkDB [mkTeam 1 "Acme" "acme"; mkTeam 2 "Beta" "beta"; mkTeam 3 "Gamma" "gamma"]
       [mkTeamMember 1 10 "ADMIN"; mkTeamMember 2 12 "MANAGER"; mkTeamMember 3 13 "ADMIN"]
       [mkTeamEmail 2 "Beta mail" "team@beta.io" 5]
       [mkTeamEmailVerification 1699999990000 "k9Xb2mQ0pLr7sTu4vWx1yZa3cDe5fGh8" 1699999390000
          "team@gamma.io" "Gamma mail" 3].

Definition busy_world : World := mkWorld busy_database [] 0 0.

(** [params.getAll(name)] *)
Definition getAll (name : string) (params : list (string * string)) : list string :=
  map snd (List.filter (fun kv => String.eqb kv.1 name) params).

(** ** What a render of the table shows *)

Module TeamsTableView.

Record CurrentTeamMember : Type := mkCurrentTeamMember {
  cm_userId : Z;
  cm_role : Role
}.

(** A row of [findTeams]: the fields the cells read. *)
Record TeamRow : Type := mkTeamRow {
  row_id : Z;
  row_name : string;
  row_url : string;
  row_ownerUserId : Z;
  row_createdAt : Z;
  currentTeamMember : CurrentTeamMember
}.

Record FindTeamsResults : Type := mkResults {
  res_data : list TeamRow;
  res_perPage : Z;
  res_currentPage : Z;
  res_totalPages : Z
}.

(** What [useQuery] returns. *)
Record QueryState : Type := mkQueryState {
  q_data : option FindTeamsResults;
  isLoading : bool;
  isInitialLoading : bool;
  isLoadingError : bool;
  isFetching : bool;
  isPreviousData : bool
}.

(** [data ?? { data: [], perPage: 10, currentPage: 1, totalPages: 1 }] *)
Definition results (q : QueryState) : FindTeamsResults :=
  default (mkResults [] 10 1 1) (q_data q).

(** The [loading] prop of the search box. *)
Definition input_loading (q : QueryState) : bool :=
  isFetching q && negb (isInitialLoading q) && isPreviousData q.

(** [skeleton.enable] *)
Definition skeleton_enable (q : QueryState) : bool :=
  isLoading q && isInitialLoading q.

(** [error.enable] *)
Definition error_enable (q : QueryState) : bool :=
  isLoadingError q.

Section Cells.

(** [TEAM_MEMBER_ROLE_MAP[role]], [None] for a role the map lacks. *)
Variable TEAM_MEMBER_ROLE_MAP : Role -> option string.

(** The cell of the Role column. *)
Definition role_cell (r : TeamRow) : option string :=
  if Z.eqb (row_ownerUserId r) (cm_userId (currentTeamMember r))
  then Some "Owner"
  else TEAM_MEMBER_ROLE_MAP (cm_role (currentTeamMember r)).

End Cells.

(** The [disabled] prop of the Leave button. *)
Definition leave_disabled (r : TeamRow) : bool :=
  Z.eqb (row_ownerUserId r) (cm_userId (currentTeamMember r)).

(** Admin, Manager, Member. *)
Definition sample_role_map (role : Role) : option string :=
  if String.eqb role "ADMIN" then Some "Admin"
  else if String.eqb role "MANAGER" then Some "Manager"
  else if String.eqb role "MEMBER" then Some "Member"
  else None.

End TeamsTableView.

(** * Proofs *)

(** ** Tactics *)

(** The journal of a run, flattened, against the one stated. *)
Ltac journal :=
  cbn [orb]; unfold throw, log, with_db; cbn [db calls ticks drawn];
  rewrite <- ?app_assoc; cbn [app]; reflexivity.

(** ** Lookups *)

Lemma truthy_find {A} (f : A -> bool) (l : list A) :
  truthy (List.find f l) = true <-> exists x, In x l /\ f x = true.
Proof.
  split.
  - destruct (List.find f l) as [a|] eqn:E; simpl; [intros _ | discriminate].
    exists a. apply find_some in E. exact E.
  - intros (x & Hin & Hf). destruct (List.find f l) eqn:E; [reflexivity|].
    pose proof (find_none f l E x Hin). congruence.
Qed.

Lemma find_none_iff {A} (f : A -> bool) (l : list A) :
  List.find f l = None <-> ~ exists x, In x l /\ f x = true.
Proof.
  rewrite <- truthy_find. destruct (List.find f l); simpl; split; congruence.
Qed.

Lemma team_where_spec d tid uid roles t :
  team_where d tid uid roles t = true <-> team_id t = tid /\ is_manager d uid tid roles.
Proof.
  unfold team_where, has_member_with_role, is_manager.
  rewrite andb_true_iff, Z.eqb_eq, existsb_exists. split.
  - intros (-> & m & Hin & Hm).
    rewrite !andb_true_iff, !Z.eqb_eq, existsb_exists in Hm.
    destruct Hm as ((Ht & Hu) & r & Hr & Heq). apply String.eqb_eq in Heq. subst r.
    split; [reflexivity|]. exists m. auto.
  - intros (<- & m & Hin & Ht & Hu & Hr). split; [reflexivity|].
    exists m. split; [exact Hin|].
    rewrite !andb_true_iff, !Z.eqb_eq, existsb_exists. repeat split; auto.
    exists (member_role m). split; [exact Hr | apply String.eqb_refl].
Qed.

Lemma find_team_authorized d tid uid roles :
  truthy (List.find (team_where d tid uid roles) (teams d)) = true
  <-> authorized d uid tid roles.
Proof.
  rewrite truthy_find. unfold authorized. split.
  - intros (t & Hin & Hw). apply team_where_spec in Hw as [Hid Hm]. eauto.
  - intros ((t & Hin & Hid) & Hm). exists t. split; [exact Hin|].
    apply team_where_spec. auto.
Qed.

Lemma find_team_id d tid uid roles t :
  List.find (team_where d tid uid roles) (teams d) = Some t -> team_id t = tid.
Proof.
  intros H. apply find_some in H as [_ H]. apply team_where_spec in H. tauto.
Qed.

Lemma include_email_spec d t :
  truthy (team_email (include_emails d t)) = true <-> team_has_email d (team_id t).
Proof.
  unfold include_emails, team_has_email; simpl. rewrite truthy_find.
  split; intros (e & Hin & He); exists e; (split; [exact Hin|]);
    [apply Z.eqb_eq | apply Z.eqb_eq]; exact He.
Qed.

Lemma include_verification_spec d t :
  truthy (team_emailVerification (include_emails d t)) = true
  <-> team_has_verification d (team_id t).
Proof.
  unfold include_emails, team_has_verification; simpl. rewrite truthy_find.
  split; intros (e & Hin & He); exists e; (split; [exact Hin|]);
    [apply Z.eqb_eq | apply Z.eqb_eq]; exact He.
Qed.

Lemma find_email_spec d address :
  truthy (List.find (fun e => String.eqb (te_email e) address) (teamEmails d)) = true
  <-> email_in_use d address.
Proof.
  unfold email_in_use. rewrite truthy_find.
  split; intros (e & Hin & He); exists e; (split; [exact Hin|]);
    [apply String.eqb_eq | apply String.eqb_eq]; exact He.
Qed.

(** ** The catch block *)

Lemma on_error_run e w :
  on_error e w = (Throw (rethrown e), log (ConsoleError e) w).
Proof.
  unfold on_error, rethrown, bind, console_error, throw.
  destruct e as [c m|c m|n m]; try reflexivity.
  destruct (is_email_conflict c m); reflexivity.
Qed.

Lemma addTeamEmailVerification_run env o w :
  addTeamEmailVerification env o w =
  match transaction (transaction_body env o) w with
  | (Ok a, w') => (Ok a, w')
  | (Throw e, w') => (Throw (rethrown e), log (ConsoleError e) w')
  end.
Proof.
  unfold addTeamEmailVerification, try_catch.
  destruct (transaction (transaction_body env o) w) as [[a|e] w']; [reflexivity|].
  apply on_error_run.
Qed.

(** ** The six ways through the transaction *)

Lemma transaction_cases env o w :
  let d := db w in
  let tid := teamId o in
  let uid := userId o in
  let roles := MANAGE_TEAM env in
  let address := email (data o) in
  let tok := minted_token env w in
  let v := verification_of o tok in
  let find_team := TeamFindFirstOrThrow tid uid roles in
  let r := transaction (transaction_body env o) w in
  (~ authorized d uid tid roles /\
   r = (Throw (notFound env),
        mkWorld d (calls w ++ [TxBegin; find_team; TxRollback]) (ticks w) (drawn w)))
  \/
  (authorized d uid tid roles /\
   (team_has_email d tid \/ team_has_verification d tid) /\
   r = (Throw already_has_email,
        mkWorld d (calls w ++ [TxBegin; find_team; TxRollback]) (ticks w) (drawn w)))
  \/
  (authorized d uid tid roles /\
   ~ (team_has_email d tid \/ team_has_verification d tid) /\
   email_in_use d address /\
   r = (Throw email_taken,
        mkWorld d (calls w ++ [TxBegin; find_team; TeamEmailFindFirst address; TxRollback])
          (ticks w) (drawn w)))
  \/
  (exists t,
     lookup_team env o d = Some t /\
     authorized d uid tid roles /\
     ~ (team_has_email d tid \/ team_has_verification d tid) /\
     ~ email_in_use d address /\
     let m := mail_of env address (token tok) (team_name t) (team_url t) in
     let minted := [TxBegin; find_team; TeamEmailFindFirst address] ++ mint_calls env w in
     ((exists e, create_fault env d v = Some e /\
         r = (Throw e,
              mkWorld d
                (calls w ++ minted ++ [TeamEmailVerificationCreate v; TxRollback])
                (S (S (ticks w))) (drawn w + 32)))
      \/
      (exists e, create_fault env d v = None /\ mail_fault env m = Some e /\
         r = (Throw e,
              mkWorld d
                (calls w ++ minted ++ [TeamEmailVerificationCreate v; SendMail m; TxRollback])
                (S (S (ticks w))) (drawn w + 32)))
      \/
      (create_fault env d v = None /\ mail_fault env m = None /\
         r = (Ok tt,
              mkWorld (insert_verification v d)
                (calls w ++ minted ++ [TeamEmailVerificationCreate v; SendMail m; TxCommit])
                (S (S (ticks w))) (drawn w + 32))))).
Proof.
  intros d tid uid roles address tok v find_team r.
  pose proof (find_team_authorized d tid uid roles) as Hauth.
  subst r. unfold transaction, transaction_body, bind, tx_team_findFirstOrThrow.
  cbn [db log calls ticks drawn].
  fold d tid uid roles.
  destruct (List.find (team_where d tid uid roles) (teams d)) as [t|] eqn:Hteam.
  2:{ left. split.
      - intros Ha. apply Hauth in Ha. discriminate.
      - journal. }
  right.
  assert (Ha : authorized d uid tid roles) by (apply Hauth; reflexivity).
  pose proof (find_team_id _ _ _ _ _ Hteam) as Hid.
  pose proof (include_email_spec d t) as He.
  pose proof (include_verification_spec d t) as Hv.
  rewrite Hid in He, Hv.
  destruct (truthy (team_email (include_emails d t))) eqn:E1.
  { left. split; [exact Ha|]. split; [left; apply He; reflexivity|].
    journal. }
  destruct (truthy (team_emailVerification (include_emails d t))) eqn:E2.
  { left. split; [exact Ha|]. split; [right; apply Hv; reflexivity|].
    journal. }
  right.
  assert (Hfree : ~ (team_has_email d tid \/ team_has_verification d tid)).
  { intros [H|H]; [apply He in H | apply Hv in H]; discriminate. }
  cbn [orb]. unfold tx_teamEmail_findFirst. cbn [db log calls ticks drawn].
  pose proof (find_email_spec d address) as Hu. fold address. fold d.
  destruct (List.find (fun e => String.eqb (te_email e) address) (teamEmails d)) eqn:Hfind.
  { left. split; [exact Ha|]. split; [exact Hfree|]. split; [apply Hu; reflexivity|].
    journal. }
  right. exists t. split; [exact Hteam|]. split; [exact Ha|]. split; [exact Hfree|].
  split; [intros H; apply Hu in H; discriminate|].
  cbn zeta.
  unfold generateTeamEmailVerificationToken, bind, date_now, nanoid, ret,
    tx_teamEmailVerification_create, sendTeamEmailVerificationEmail, mailer_sendMail.
  cbn [db log calls ticks drawn with_db expiresAt token createdAt].
  fold d.
  change (mkTeamEmailVerification (clock env (ticks w) + ten_minutes)
            (nanoid_of_bytes (map (entropy env) (seq (drawn w) 32)))
            (clock env (S (ticks w))) address (name (data o)) tid) with v.
  destruct (create_fault env d v) as [e|] eqn:Hc.
  { left. exists e. split; [reflexivity|]. journal. }
  right.
  change (mkMail address (FROM_NAME env) (FROM_ADDRESS env) (mail_subject (team_name t))
            (render env _ false) (render env _ true))
    with (mail_of env address (token tok) (team_name t) (team_url t)).
  destruct (mail_fault env _) as [e|] eqn:Hm.
  - left. exists e. split; [reflexivity|]. split; [reflexivity|].
    journal.
  - right. split; [reflexivity|]. split; [reflexivity|].
    journal.
Qed.

(** ** A run, end to end *)

Example admin_claim_succeeds :
  let run := addTeamEmailVerification Sample.env Sample.admin_claim Sample.world in
  run.1 = Ok tt
  /\ map kind (calls run.2)
     = [KTxBegin; KFindTeam; KFindTeamEmail; KDateNow; KNanoid; KDateNow; KCreate;
        KSendMail; KTxCommit]
  /\ teamEmailVerifications (db run.2)
     = [mkTeamEmailVerification 1700000600000 "dL3jAcD-GPqVsSTb5yYnO8hJiNm_0lKu"
          1700000000007 "team@acme.io" "Acme mail" 1].
Proof. vm_compute. repeat split. Qed.

Example database_conflict_is_reported_as_taken :
  (addTeamEmailVerification Sample.env_conflict Sample.admin_claim Sample.world).1
  = Throw email_taken.
Proof. vm_compute. reflexivity. Qed.

(** ** The workflow as a whole *)

(** Each call of a listed journal that has the kind asked for is the call
    expected; what is left is the mail, when the journal has one. *)
Ltac known_calls :=
  let c := fresh "c" in
  let Hin := fresh "Hin" in
  let Hk := fresh "Hk" in
  intros c Hin Hk; cbn in Hin;
  repeat (destruct Hin as [<-|Hin]; [try discriminate Hk; try reflexivity|]);
  try contradiction.

(** C1: every call of [addTeamEmailVerification] is one transaction.  Its
    calls are, in order, the first [n] of: the permission check (the team
    lookup with the caller's id and the MANAGE_TEAM roles), the uniqueness
    check, the token mint, the creation of the verification record and the
    confirmation mail.  The permission check is always made; [n] is 1 when it
    fails or the team has its e-mail or a pending verification, 2 when the
    address is in use, 4 when the database refuses the insert and 5, the whole
    list, otherwise.  Each call is the one the source makes, and the only
    write to the database is the created record. *)
Theorem addTeamEmailVerification_single_transaction env o w :
  let run := addTeamEmailVerification env o w in
  let tok := minted_token env w in
  let v := verification_of o tok in
  let may := authorized (db w) (userId o) (teamId o) (MANAGE_TEAM env) in
  let has := team_has_email (db w) (teamId o) \/ team_has_verification (db w) (teamId o) in
  let used := email_in_use (db w) (email (data o)) in
  exists (new : list Call) (n : nat),
    calls run.2 = calls w ++ new
    /\ map kind new
       = KTxBegin :: concat (map step_calls (take n workflow)) ++ closing (is_ok run.1)
    /\ (1 <= n)%nat
    /\ (~ may -> n = 1%nat)
    /\ (may -> has -> n = 1%nat)
    /\ (may -> ~ has -> used -> n = 2%nat)
    /\ (may -> ~ has -> ~ used ->
          match create_fault env (db w) v with
          | Some _ => n = 4%nat
          | None => n = 5%nat
          end)
    /\ ((is_ok run.1 = false /\ db run.2 = db w)
        \/ (is_ok run.1 = true /\ n = length workflow /\
            exists v, In (TeamEmailVerificationCreate v) new
                      /\ db run.2 = insert_verification v (db w)))
    /\ (forall c, In c new -> kind c = KFindTeam ->
          c = TeamFindFirstOrThrow (teamId o) (userId o) (MANAGE_TEAM env))
    /\ (forall c, In c new -> kind c = KFindTeamEmail ->
          c = TeamEmailFindFirst (email (data o)))
    /\ (forall c, In c new -> kind c = KNanoid -> c = Nanoid 32 (token tok))
    /\ (forall c, In c new -> kind c = KCreate -> c = TeamEmailVerificationCreate v)
    /\ (forall c, In c new -> kind c = KSendMail ->
          exists t, lookup_team env o (db w) = Some t
                    /\ c = SendMail (mail_of env (email (data o)) (token tok)
                                       (team_name t) (team_url t))).
Proof.
  intros run tok v may has used. subst run may has used.
  rewrite addTeamEmailVerification_run.
  destruct (transaction_cases env o w)
    as [[Hno ->]|[(Ha & Hhas & ->)|[(Ha & Hfree & Huse & ->)|(t & Ht & Ha & Hfree & Hnew & H)]]].
  - eexists; exists 1%nat. unfold log; cbn [fst snd db calls is_ok].
    rewrite <- app_assoc. split; [reflexivity|]. split; [reflexivity|].
    split; [lia|]. split; [reflexivity|].
    split; [tauto|]. split; [tauto|]. split; [tauto|].
    split; [left; split; reflexivity|].
    repeat split; known_calls.
  - eexists; exists 1%nat. unfold log; cbn [fst snd db calls is_ok].
    rewrite <- app_assoc. split; [reflexivity|]. split; [reflexivity|].
    split; [lia|]. split; [reflexivity|].
    split; [reflexivity|]. split; [tauto|]. split; [tauto|].
    split; [left; split; reflexivity|].
    repeat split; known_calls.
  - eexists; exists 2%nat. unfold log; cbn [fst snd db calls is_ok].
    rewrite <- app_assoc. split; [reflexivity|]. split; [reflexivity|].
    split; [lia|]. split; [tauto|].
    split; [tauto|]. split; [reflexivity|]. split; [tauto|].
    split; [left; split; reflexivity|].
    repeat split; known_calls.
  - cbn zeta in H. fold tok in H. fold v in H.
    destruct H as [(e & Hc & ->)|[(e & Hc & Hm & ->)|(Hc & Hm & ->)]].
    + eexists; exists 4%nat. unfold log; cbn [fst snd db calls is_ok].
      rewrite <- app_assoc. split; [reflexivity|]. split; [reflexivity|].
      split; [lia|]. split; [tauto|].
      split; [tauto|]. split; [tauto|]. split; [rewrite Hc; reflexivity|].
      split; [left; split; reflexivity|].
      repeat split; known_calls.
    + eexists; exists 5%nat. unfold log; cbn [fst snd db calls is_ok].
      rewrite <- app_assoc. split; [reflexivity|]. split; [reflexivity|].
      split; [lia|]. split; [tauto|].
      split; [tauto|]. split; [tauto|]. split; [rewrite Hc; reflexivity|].
      split; [left; split; reflexivity|].
      repeat split; known_calls; exists t; split; [exact Ht | reflexivity].
    + eexists; exists 5%nat. cbn [fst snd db calls is_ok].
      split; [reflexivity|]. split; [reflexivity|].
      split; [lia|]. split; [tauto|].
      split; [tauto|]. split; [tauto|]. split; [rewrite Hc; reflexivity|].
      split.
      { right. split; [reflexivity|]. split; [reflexivity|].
        exists v. split; [|reflexivity]. cbn. tauto. }
      repeat split; known_calls; exists t; split; [exact Ht | reflexivity].
Qed.

(** ** The failures *)

(** C2: when the caller is not a member of the team with a MANAGE_TEAM role
    (or the team does not exist), the call throws what the failed lookup
    throws, the database is as before, and the journal holds the lookup and
    the rollback only: no insert, no mail. *)
Theorem addTeamEmailVerification_unauthorized env o w :
  ~ authorized (db w) (userId o) (teamId o) (MANAGE_TEAM env) ->
  addTeamEmailVerification env o w =
  (Throw (rethrown (notFound env)),
   mkWorld (db w)
     (calls w ++ [TxBegin; TeamFindFirstOrThrow (teamId o) (userId o) (MANAGE_TEAM env);
                  TxRollback; ConsoleError (notFound env)])
     (ticks w) (drawn w)).
Proof.
  intros Hno. rewrite addTeamEmailVerification_run.
  destruct (transaction_cases env o w)
    as [[_ ->]|[(Ha & _)|[(Ha & _)|(t & _ & Ha & _)]]]; try contradiction.
  journal.
Qed.

Lemma addTeamEmailVerification_unauthorized_witness :
  ~ authorized Sample.database 11 1 ["ADMIN"; "MANAGER"]
  /\ addTeamEmailVerification Sample.env Sample.member_claim Sample.world =
     (Throw (PrismaClientKnownRequestError "P2025" None),
      mkWorld Sample.database
        [TxBegin; TeamFindFirstOrThrow 1 11 ["ADMIN"; "MANAGER"]; TxRollback;
         ConsoleError (PrismaClientKnownRequestError "P2025" None)] 0 0).
Proof.
  assert (H : ~ authorized Sample.database 11 1 ["ADMIN"; "MANAGER"]).
  { rewrite <- find_team_authorized. vm_compute. discriminate. }
  split; [exact H|].
  exact (addTeamEmailVerification_unauthorized Sample.env Sample.member_claim Sample.world H).
Defined.

(** C3: for an authorized caller, a team that has an e-mail or a pending
    verification gets AppError INVALID_REQUEST; otherwise an address that is
    in a teamEmail record gets AppError ALREADY_EXISTS with the message
    'Email already taken by another team.'; either way the database is as
    before and the journal holds no insert and no mail. *)
Theorem addTeamEmailVerification_uniqueness env o w :
  authorized (db w) (userId o) (teamId o) (MANAGE_TEAM env) ->
  let find_team := TeamFindFirstOrThrow (teamId o) (userId o) (MANAGE_TEAM env) in
  let invalid :=
    AppError INVALID_REQUEST "Team already has an email or existing email verification." in
  let taken := AppError ALREADY_EXISTS "Email already taken by another team." in
  (team_has_email (db w) (teamId o) \/ team_has_verification (db w) (teamId o) ->
   addTeamEmailVerification env o w =
   (Throw invalid,
    mkWorld (db w) (calls w ++ [TxBegin; find_team; TxRollback; ConsoleError invalid])
      (ticks w) (drawn w)))
  /\
  (~ (team_has_email (db w) (teamId o) \/ team_has_verification (db w) (teamId o)) ->
   email_in_use (db w) (email (data o)) ->
   addTeamEmailVerification env o w =
   (Throw taken,
    mkWorld (db w)
      (calls w ++ [TxBegin; find_team; TeamEmailFindFirst (email (data o)); TxRollback;
                   ConsoleError taken])
      (ticks w) (drawn w))).
Proof.
  intros Ha find_team invalid taken. rewrite addTeamEmailVerification_run.
  destruct (transaction_cases env o w)
    as [[Hno _]|[(_ & Hhas & ->)|[(_ & Hfree & Huse & ->)|(t & _ & _ & Hfree & Hnew & _)]]].
  - contradiction.
  - split; [intros _; journal | intros Hfree; contradiction].
  - split; [intros Hhas; contradiction | intros _ _; journal].
  - split; [intros Hhas; contradiction | intros _ Huse; contradiction].
Qed.

Lemma addTeamEmailVerification_uniqueness_witness :
  (addTeamEmailVerification Sample.env Sample.second_claim Sample.world).1
  = Throw (AppError INVALID_REQUEST
             "Team already has an email or existing email verification.")
  /\ (addTeamEmailVerification Sample.env Sample.taken_claim Sample.world).1
     = Throw (AppError ALREADY_EXISTS "Email already taken by another team.").
Proof.
  assert (A2 : authorized (db Sample.world) 12 2 ["ADMIN"; "MANAGER"]).
  { rewrite <- find_team_authorized. vm_compute. reflexivity. }
  assert (A1 : authorized (db Sample.world) 10 1 ["ADMIN"; "MANAGER"]).
  { rewrite <- find_team_authorized. vm_compute. reflexivity. }
  assert (E2 : team_has_email (db Sample.world) 2).
  { eexists. split; [left; reflexivity | reflexivity]. }
  assert (F1 : ~ (team_has_email (db Sample.world) 1
                  \/ team_has_verification (db Sample.world) 1)).
  { intros [(e & [<-|[]] & He)|(v & [] & _)]. discriminate He. }
  assert (U1 : email_in_use (db Sample.world) "team@beta.io").
  { eexists. split; [left; reflexivity | reflexivity]. }
  split.
  - rewrite (proj1 (addTeamEmailVerification_uniqueness
                      Sample.env Sample.second_claim Sample.world A2) (or_introl E2)).
    reflexivity.
  - rewrite (proj2 (addTeamEmailVerification_uniqueness
                      Sample.env Sample.taken_claim Sample.world A1) F1 U1).
    reflexivity.
Defined.

(** C4: whenever the call throws, whichever step threw -- the lookup, a
    check, the insert, or the mail sent after the insert -- the database is
    the one the call started from. *)
Theorem addTeamEmailVerification_rollback env o w e :
  (addTeamEmailVerification env o w).1 = Throw e ->
  db (addTeamEmailVerification env o w).2 = db w
  /\ teamEmailVerifications (db (addTeamEmailVerification env o w).2)
     = teamEmailVerifications (db w).
Proof.
  rewrite addTeamEmailVerification_run.
  destruct (transaction_cases env o w)
    as [[_ ->]|[(_ & _ & ->)|[(_ & _ & _ & ->)|(t & _ & _ & _ & _ & H)]]];
    try (intros _; split; reflexivity).
  cbn zeta in H. destruct H as [(e' & _ & ->)|[(e' & _ & _ & ->)|(_ & _ & ->)]];
    try (intros _; split; reflexivity).
  discriminate.
Qed.

(** The mail transport is down: the insert was made inside the transaction,
    the mail was handed over and failed, and the record is gone. *)
Lemma addTeamEmailVerification_rollback_witness :
  let run := addTeamEmailVerification Sample.env_no_mail Sample.admin_claim Sample.world in
  run.1 = Throw Sample.smtp_down
  /\ map kind (calls run.2)
     = [KTxBegin; KFindTeam; KFindTeamEmail; KDateNow; KNanoid; KDateNow; KCreate;
        KSendMail; KTxRollback; KConsoleError]
  /\ db run.2 = Sample.database
  /\ teamEmailVerifications (db run.2) = [].
Proof.
  assert (H : (addTeamEmailVerification Sample.env_no_mail Sample.admin_claim Sample.world).1
              = Throw Sample.smtp_down) by (vm_compute; reflexivity).
  split; [exact H|]. split; [vm_compute; reflexivity|].
  exact (addTeamEmailVerification_rollback
           Sample.env_no_mail Sample.admin_claim Sample.world Sample.smtp_down H).
Defined.

(** ** The token and the mail *)

Lemma length_string_of_list_ascii (l : list ascii) :
  String.length (String.string_of_list_ascii l) = length l.
Proof. induction l as [|c l IH]; simpl; [reflexivity | now rewrite IH]. Qed.

Lemma nanoid_of_bytes_length (bytes : list Z) :
  String.length (nanoid_of_bytes bytes) = length bytes.
Proof.
  unfold nanoid_of_bytes. rewrite length_string_of_list_ascii. apply length_map.
Qed.

Lemma land_63_bounds (b : Z) : (0 <= Z.land b 63 < 64)%Z.
Proof.
  change 63%Z with (Z.ones 6). rewrite Z.land_ones by lia.
  apply Z.mod_pos_bound. reflexivity.
Qed.

Lemma urlAlphabet_total (i : nat) :
  (i < 64)%nat -> exists c, String.get i urlAlphabet = Some c.
Proof.
  intros Hi.
  do 64 (destruct i as [|i]; [eexists; reflexivity|]).
  lia.
Qed.

Lemma alphabet_char_in_alphabet (b : Z) :
  exists i, (i < 64)%nat /\ String.get i urlAlphabet = Some (alphabet_char b).
Proof.
  pose proof (land_63_bounds b) as Hb.
  exists (Z.to_nat (Z.land b 63)).
  assert (Hi : (Z.to_nat (Z.land b 63) < 64)%nat) by lia.
  split; [exact Hi|].
  unfold alphabet_char.
  destruct (urlAlphabet_total _ Hi) as [c ->]. reflexivity.
Qed.

Lemma nanoid_of_bytes_url_safe (bytes : list Z) : url_safe (nanoid_of_bytes bytes).
Proof.
  unfold url_safe, nanoid_of_bytes.
  rewrite String.list_ascii_of_string_of_list_ascii.
  apply List.Forall_forall. intros c Hc. apply in_map_iff in Hc as (b & <- & _).
  apply alphabet_char_in_alphabet.
Qed.

Lemma generateTeamEmailVerificationToken_run env w :
  generateTeamEmailVerificationToken env w =
  (Ok (minted_token env w),
   mkWorld (db w) (calls w ++ mint_calls env w) (S (S (ticks w))) (drawn w + 32)).
Proof.
  unfold generateTeamEmailVerificationToken, bind, date_now, nanoid, ret, mint_calls,
    minted_token.
  cbn [db calls ticks drawn token]. rewrite <- !app_assoc. reflexivity.
Qed.

(** C5, as stated, fails: with a clock that moves between the two readings
    the function takes, [expiresAt] is not ten minutes after [createdAt]. *)
Lemma generateTeamEmailVerificationToken_clock_drift :
  exists tok w',
    generateTeamEmailVerificationToken Sample.env Sample.world = (Ok tok, w')
    /\ expiresAt tok = 1700000600000%Z
    /\ createdAt tok = 1700000000007%Z
    /\ expiresAt tok <> (createdAt tok + ten_minutes)%Z.
Proof.
  do 2 eexists. split; [apply generateTeamEmailVerificationToken_run|].
  vm_compute. repeat split; discriminate.
Qed.

(** C5, amended: the token record expires exactly ten minutes after the clock
    reading the function takes first, its [createdAt] is the next reading, its
    token is 32 characters of nanoid's alphabet; and a successful
    [addTeamEmailVerification] stores that very token in the record it inserts
    and renders it into the one mail it sends, addressed to the claimed
    address. *)
Theorem verification_token_minted_stored_and_sent env :
  (forall w, exists tok w',
     generateTeamEmailVerificationToken env w = (Ok tok, w')
     /\ expiresAt tok = (clock env (ticks w) + 10 * 60 * 1000)%Z
     /\ createdAt tok = clock env (S (ticks w))
     /\ String.length (token tok) = 32%nat
     /\ url_safe (token tok)
     /\ calls w' = calls w ++ [DateNow (clock env (ticks w)); Nanoid 32 (token tok);
                               DateNow (clock env (S (ticks w)))])
  /\
  (forall o w w',
     addTeamEmailVerification env o w = (Ok tt, w') ->
     exists tok v m tpl,
       expiresAt tok = (clock env (ticks w) + 10 * 60 * 1000)%Z
       /\ createdAt tok = clock env (S (ticks w))
       /\ String.length (token tok) = 32%nat
       /\ db w' = insert_verification v (db w)
       /\ v = mkTeamEmailVerification (expiresAt tok) (token tok) (createdAt tok)
                (email (data o)) (name (data o)) (teamId o)
       /\ calls w'
          = calls w ++ [TxBegin;
                        TeamFindFirstOrThrow (teamId o) (userId o) (MANAGE_TEAM env);
                        TeamEmailFindFirst (email (data o));
                        DateNow (clock env (ticks w)); Nanoid 32 (token tok);
                        DateNow (clock env (S (ticks w)));
                        TeamEmailVerificationCreate v; SendMail m; TxCommit]
       /\ mail_to m = email (data o)
       /\ tpl_token tpl = token tok
       /\ html m = render env tpl false
       /\ text m = render env tpl true).
Proof.
  split.
  - intros w. do 2 eexists. split; [apply generateTeamEmailVerificationToken_run|].
    cbn [minted_token expiresAt createdAt token calls].
    split; [reflexivity|]. split; [reflexivity|].
    split; [rewrite nanoid_of_bytes_length, length_map, length_seq; reflexivity|].
    split; [apply nanoid_of_bytes_url_safe | reflexivity].
  - intros o w w' Hrun. rewrite addTeamEmailVerification_run in Hrun.
    destruct (transaction_cases env o w)
      as [[_ H]|[(_ & _ & H)|[(_ & _ & _ & H)|(t & _ & _ & _ & _ & H)]]];
      try (rewrite H in Hrun; discriminate Hrun).
    cbn zeta in H. destruct H as [(e & _ & H)|[(e & _ & _ & H)|(_ & _ & H)]];
      try (rewrite H in Hrun; discriminate Hrun).
    rewrite H in Hrun. injection Hrun as <-.
    exists (minted_token env w), (verification_of o (minted_token env w)),
      (mail_of env (email (data o)) (token (minted_token env w)) (team_name t) (team_url t)),
      (template_of env (token (minted_token env w)) (team_name t) (team_url t)).
    cbn [db calls minted_token expiresAt createdAt token].
    split; [reflexivity|]. split; [reflexivity|].
    split; [rewrite nanoid_of_bytes_length, length_map, length_seq; reflexivity|].
    repeat split.
Qed.

Lemma verification_token_minted_stored_and_sent_witness :
  exists tok v m tpl,
    expiresAt tok = 1700000600000%Z
    /\ createdAt tok = 1700000000007%Z
    /\ In v (teamEmailVerifications
               (db (addTeamEmailVerification Sample.env Sample.admin_claim Sample.world).2))
    /\ tev_token v = token tok
    /\ In (SendMail m)
          (calls (addTeamEmailVerification Sample.env Sample.admin_claim Sample.world).2)
    /\ mail_to m = "team@acme.io"
    /\ tpl_token tpl = token tok
    /\ html m = render Sample.env tpl false.
Proof.
  destruct (proj2 (verification_token_minted_stored_and_sent Sample.env)
              Sample.admin_claim Sample.world
              (addTeamEmailVerification Sample.env Sample.admin_claim Sample.world).2
              ltac:(vm_compute; reflexivity))
    as (tok & v & m & tpl & Hexp & Hcre & _ & Hdb & Hv & Hcalls & Hto & Htok & Hhtml & _).
  exists tok, v, m, tpl.
  rewrite Hexp, Hcre, Hdb, Hcalls, Hv, Hto, Htok, Hhtml.
  repeat split; try reflexivity.
  - cbn. left. reflexivity.
  - apply in_or_app. right. cbn. tauto.
Defined.

Lemma contains_middle (before needle after : string) :
  contains (before +:+ needle +:+ after) needle.
Proof. exists before, after. reflexivity. Qed.

(** C6: every call of [sendTeamEmailVerificationEmail] hands the mailer one
    message: to the given address, from FROM_NAME / FROM_ADDRESS, with the team
    name in the subject, and with an HTML and a plain-text body rendered from
    one template that carries the token, the team name, the team url and the
    two base urls. *)
Theorem sendTeamEmailVerificationEmail_one_mail env address tok teamName teamUrl w :
  let run := sendTeamEmailVerificationEmail env address tok teamName teamUrl w in
  exists m tpl,
    calls run.2 = calls w ++ [SendMail m]
    /\ db run.2 = db w
    /\ mail_to m = address
    /\ from_name m = FROM_NAME env
    /\ from_address m = FROM_ADDRESS env
    /\ contains (subject m) teamName
    /\ html m = render env tpl false
    /\ text m = render env tpl true
    /\ tpl = mkTemplate
               (or_default (NEXT_PUBLIC_WEBAPP_URL env) "http://localhost:3000")
               (WEBAPP_BASE_URL env) teamName teamUrl tok.
Proof.
  intros run.
  exists (mail_of env address tok teamName teamUrl), (template_of env tok teamName teamUrl).
  subst run. unfold sendTeamEmailVerificationEmail, mailer_sendMail.
  fold (template_of env tok teamName teamUrl).
  fold (mail_of env address tok teamName teamUrl).
  assert (Hsubject : contains (subject (mail_of env address tok teamName teamUrl)) teamName)
    by apply contains_middle.
  destruct (mail_fault env _); cbn [snd log calls db];
    repeat split; exact Hsubject.
Qed.

(** ** The catch block, in the words of the claim *)

Lemma zod_string_array_safeParse_spec (v : JsVal) (xs : list string) :
  zod_string_array_safeParse v = Some xs <-> v = JArr (map JStr xs).
Proof.
  destruct v as [| |b|n|s|vs]; simpl; try (split; discriminate).
  rewrite mapM_Some. split.
  - intros H. f_equal. induction H as [|x y l k Hx _ IH]; [reflexivity|].
    destruct x; try discriminate. injection Hx as ->. simpl. now rewrite IH.
  - intros [= ->]. induction xs as [|x xs IH]; constructor; [reflexivity | exact IH].
Qed.

Lemma includes_In (s : string) (xs : list string) :
  includes s xs = true <-> In s xs.
Proof.
  unfold includes. rewrite existsb_exists. split.
  - intros (x & Hin & Heq). apply String.eqb_eq in Heq. now subst.
  - intros Hin. exists s. split; [exact Hin | apply String.eqb_refl].
Qed.

Lemma rethrown_spec (e : Err) :
  (email_conflict e -> rethrown e = AppError ALREADY_EXISTS "Email already taken by another team.")
  /\ (~ email_conflict e -> rethrown e = e).
Proof.
  unfold email_conflict. split.
  - intros (meta & targets & -> & Ht & Hin). unfold rethrown, is_email_conflict.
    apply zod_string_array_safeParse_spec in Ht. rewrite Ht.
    apply includes_In in Hin. rewrite Hin. reflexivity.
  - intros Hno. destruct e as [c m|code meta|n m]; try reflexivity.
    unfold rethrown, is_email_conflict.
    destruct (String.eqb code "P2002") eqn:Hcode; [|reflexivity].
    destruct (zod_string_array_safeParse (meta_target meta)) as [targets|] eqn:Ht;
      [|reflexivity].
    destruct (includes "email" targets) eqn:Hin; [|reflexivity].
    exfalso. apply Hno. exists meta, targets.
    apply String.eqb_eq in Hcode. subst code.
    apply zod_string_array_safeParse_spec in Ht. apply includes_In in Hin. auto.
Qed.

(** C10: an error [e] of the transaction reaches the caller as AppError
    ALREADY_EXISTS 'Email already taken by another team.' when it is a Prisma
    known request error with code P2002 whose meta target is an array of
    strings with 'email' in it, and as [e] itself in every other case. *)
Theorem addTeamEmailVerification_error_translation env o w e w1 :
  transaction (transaction_body env o) w = (Throw e, w1) ->
  (email_conflict e ->
   (addTeamEmailVerification env o w).1
   = Throw (AppError ALREADY_EXISTS "Email already taken by another team."))
  /\ (~ email_conflict e -> (addTeamEmailVerification env o w).1 = Throw e).
Proof.
  intros Hrun. rewrite addTeamEmailVerification_run, Hrun. cbn [fst].
  destruct (rethrown_spec e) as [Hyes Hno].
  split; intros H; [rewrite (Hyes H) | rewrite (Hno H)]; reflexivity.
Qed.

Lemma addTeamEmailVerification_error_translation_witness :
  (addTeamEmailVerification Sample.env_conflict Sample.admin_claim Sample.world).1
  = Throw (AppError ALREADY_EXISTS "Email already taken by another team.")
  /\ (addTeamEmailVerification Sample.env_no_mail Sample.admin_claim Sample.world).1
     = Throw Sample.smtp_down.
Proof.
  split.
  - refine (proj1 (addTeamEmailVerification_error_translation
                     Sample.env_conflict Sample.admin_claim Sample.world
                     Sample.unique_violation
                     (transaction (transaction_body Sample.env_conflict Sample.admin_claim)
                        Sample.world).2 _) _).
    + vm_compute. reflexivity.
    + exists (Some (<["target" := JArr [JStr "email"]]> ∅)), ["email"].
      split; [reflexivity|]. split; [vm_compute; reflexivity | left; reflexivity].
  - refine (proj2 (addTeamEmailVerification_error_translation
                     Sample.env_no_mail Sample.admin_claim Sample.world
                     Sample.smtp_down
                     (transaction (transaction_body Sample.env_no_mail Sample.admin_claim)
                        Sample.world).2 _) _).
    + vm_compute. reflexivity.
    + intros (meta & targets & Heq & _). discriminate Heq.
Defined.

(** ** The teams data table *)

Section DataTable.

Import TeamsDataTable.

Lemma findTeams_input_dom (p : ParsedSearchParams) :
  dom (findTeams_input p) = ({[ "term"; "page"; "perPage" ]} : gset string).
Proof.
  unfold findTeams_input. rewrite !dom_insert_L, dom_empty_L. set_solver.
Qed.

Lemma findTeams_input_fields (p : ParsedSearchParams) :
  findTeams_input p !! "term" = Some (query p)
  /\ findTeams_input p !! "page" = Some (page p)
  /\ findTeams_input p !! "perPage" = Some (perPage p).
Proof. unfold findTeams_input. repeat split; by simplify_map_eq. Qed.

Lemma usp_delete_twice name params :
  usp_delete name (usp_delete name params) = usp_delete name params.
Proof.
  unfold usp_delete. induction params as [|kv rest IH]; [reflexivity|].
  simpl. destruct (String.eqb kv.1 name) eqn:E; simpl; [exact IH|].
  rewrite E. simpl. now rewrite IH.
Qed.

Lemma usp_delete_set name value params :
  usp_delete name (usp_set name value params) = usp_delete name params.
Proof.
  induction params as [|kv rest IH]; simpl.
  - now rewrite String.eqb_refl.
  - destruct (String.eqb kv.1 name) eqn:E; simpl.
    + rewrite String.eqb_refl. simpl. apply usp_delete_twice.
    + rewrite E. simpl. now rewrite IH.
Qed.

(** C7: a render whose search params parse to [p] issues the findTeams query
    with exactly term = p.query, page = p.page and perPage = p.perPage, and a
    pagination change hands exactly page and perPage to updateSearchParams. *)
Theorem TeamsDataTable_query_follows_search_params parse h p pg pp :
  parsedSearchParams parse h = Some p ->
  (exists input,
     TeamsDataTable parse h = Some [FindTeamsQuery input]
     /\ input !! "term" = Some (query p)
     /\ input !! "page" = Some (page p)
     /\ input !! "perPage" = Some (perPage p)
     /\ dom input = ({[ "term"; "page"; "perPage" ]} : gset string))
  /\
  (exists params,
     onPaginationChange pg pp = [UpdateSearchParams params]
     /\ params !! "page" = Some (JNum pg)
     /\ params !! "perPage" = Some (JNum pp)
     /\ dom params = ({[ "page"; "perPage" ]} : gset string)).
Proof.
  intros Hp. split.
  - exists (findTeams_input p). unfold TeamsDataTable. rewrite Hp.
    split; [reflexivity|].
    destruct (findTeams_input_fields p) as (Ht & Hpg & Hpp).
    split; [exact Ht|]. split; [exact Hpg|]. split; [exact Hpp|].
    apply findTeams_input_dom.
  - eexists. split; [reflexivity|].
    split; [by simplify_map_eq|]. split; [by simplify_map_eq|].
    rewrite !dom_insert_L, dom_empty_L. set_solver.
Qed.

Lemma TeamsDataTable_query_follows_search_params_witness :
  parsedSearchParams TableSample.schema_parse TableSample.hooks
  = Some (mkParsed (JStr "acme") (JNum 2) (JNum 20))
  /\
  (exists input,
     TeamsDataTable TableSample.schema_parse TableSample.hooks = Some [FindTeamsQuery input]
     /\ input !! "term" = Some (JStr "acme")
     /\ input !! "page" = Some (JNum 2)
     /\ input !! "perPage" = Some (JNum 20)
     /\ dom input = ({[ "term"; "page"; "perPage" ]} : gset string))
  /\
  (exists params,
     onPaginationChange 3 50 = [UpdateSearchParams params]
     /\ params !! "page" = Some (JNum 3)
     /\ params !! "perPage" = Some (JNum 50)
     /\ dom params = ({[ "page"; "perPage" ]} : gset string)).
Proof.
  assert (H : parsedSearchParams TableSample.schema_parse TableSample.hooks
              = Some (mkParsed (JStr "acme") (JNum 2) (JNum 20)))
    by (vm_compute; reflexivity).
  split; [exact H|].
  exact (TeamsDataTable_query_follows_search_params
           TableSample.schema_parse TableSample.hooks
           (mkParsed (JStr "acme") (JNum 2) (JNum 20)) 3 50 H).
Defined.

(** C8, as stated, fails: whatever the schema and the URL, the query a render
    sends carries no field besides term, page and perPage, so no sort order. *)
Lemma findTeams_query_has_no_sort_order :
  ~ exists parse h queries input,
      TeamsDataTable parse h = Some queries
      /\ In (FindTeamsQuery input) queries
      /\ has_extra_field input.
Proof.
  intros (parse & h & queries & input & Hrender & Hin & k & Hk & Ht & Hpg & Hpp).
  unfold TeamsDataTable in Hrender.
  destruct (parsedSearchParams parse h) as [p|]; [|discriminate].
  injection Hrender as <-. destruct Hin as [[= <-]|[]].
  apply elem_of_dom in Hk. rewrite findTeams_input_dom in Hk.
  rewrite !elem_of_union, !elem_of_singleton in Hk. tauto.
Qed.

(** C8, amended: the table is paginated and searchable, not sortable.  The
    query of a render has exactly the fields term, page and perPage.  A
    pagination change makes one call, updateSearchParams with exactly page
    and perPage.  The search box, when the pathname is known, makes one call,
    a route push whose params are the current ones with [query] set to the
    search term (removed for an empty one) and nothing else changed; without
    a pathname it does nothing.  No interaction issues anything else. *)
Theorem TeamsDataTable_query_state parse h queries :
  TeamsDataTable parse h = Some queries ->
  let current := default [] (searchParams h) in
  let term := debouncedSearchQuery h in
  (exists input, queries = [FindTeamsQuery input]
                 /\ dom input = ({[ "term"; "page"; "perPage" ]} : gset string))
  /\
  (forall pg pp,
     interact h (PaginationChange pg pp)
     = [UpdateSearchParams (<["page" := JNum pg]> (<["perPage" := JNum pp]> ∅))])
  /\
  (forall path, pathname h = Some path -> path <> EmptyString ->
     exists params,
       interact h SearchInput = [RouterPush path params]
       /\ params = (if is_empty term then usp_delete "query" current
                    else usp_set "query" term current)
       /\ usp_delete "query" params = usp_delete "query" current)
  /\
  (pathname h = None \/ pathname h = Some EmptyString -> interact h SearchInput = [])
  /\
  (forall i c, In c (interact h i) ->
     match c with
     | UpdateSearchParams params => dom params = ({[ "page"; "perPage" ]} : gset string)
     | RouterPush path params =>
         pathname h = Some path
         /\ usp_delete "query" params = usp_delete "query" current
     | FindTeamsQuery _ => False
     end).
Proof.
  intros Hrender current term. split.
  { unfold TeamsDataTable in Hrender.
    destruct (parsedSearchParams parse h) as [p|]; [|discriminate].
    injection Hrender as <-. eexists. split; [reflexivity | apply findTeams_input_dom]. }
  split; [reflexivity|].
  split.
  { intros path Hpath Hne. cbn [interact]. unfold search_effect. rewrite Hpath.
    destruct path as [|a path]; [contradiction|]. fold current term.
    eexists. split; [reflexivity|].
    destruct (is_empty term).
    - split; [apply usp_delete_set|]. rewrite usp_delete_twice. apply usp_delete_set.
    - split; [reflexivity | apply usp_delete_set]. }
  split.
  { intros [Hp|Hp]; cbn [interact]; unfold search_effect; rewrite Hp; reflexivity. }
  intros [|pg pp] c Hc; simpl in Hc.
  - unfold search_effect in Hc.
    destruct (pathname h) as [[|a path]|]; try contradiction.
    destruct Hc as [<-|[]]. split; [reflexivity|]. fold current term.
    destruct (is_empty term).
    + rewrite usp_delete_twice. apply usp_delete_set.
    + apply usp_delete_set.
  - destruct Hc as [<-|[]]. rewrite !dom_insert_L, dom_empty_L. set_solver.
Qed.

Lemma TeamsDataTable_query_state_witness :
  TeamsDataTable TableSample.schema_parse TableSample.hooks
  = Some [FindTeamsQuery (findTeams_input (mkParsed (JStr "acme") (JNum 2) (JNum 20)))]
  /\ interact TableSample.hooks (PaginationChange 3 50)
     = [UpdateSearchParams (<["page" := JNum 3]> (<["perPage" := JNum 50]> ∅))]
  /\ exists params,
       interact TableSample.hooks SearchInput = [RouterPush "/teams" params]
       /\ params = [("query", "beta"); ("page", "2"); ("perPage", "20")]
       /\ usp_delete "query" params = [("page", "2"); ("perPage", "20")].
Proof.
  assert (H : TeamsDataTable TableSample.schema_parse TableSample.hooks
              = Some [FindTeamsQuery
                        (findTeams_input (mkParsed (JStr "acme") (JNum 2) (JNum 20)))])
    by (vm_compute; reflexivity).
  split; [exact H|].
  destruct (TeamsDataTable_query_state _ _ _ H) as (_ & Hpage & Hsearch & _).
  split; [exact (Hpage 3%Z 50%Z)|].
  exact (Hsearch "/teams" eq_refl ltac:(discriminate)).
Defined.

End DataTable.

(** ** The teams dashboard layout *)

Section TeamsLayout.

Import Layout.

(** C9: with no session the layout asks for the session, redirects to
    '/signin' and does nothing else; [getTeams] is called only when there is a
    session, and then with the id of that session's user. *)
Theorem layout_redirects_before_fetching_teams {User Teams} (env : LayoutEnv User Teams) :
  let run := AuthenticatedTeamsDashboardLayout env in
  (getServerSession env = None ->
   run = ([GetServerSession; Redirect "/signin"], Redirected "/signin")
   /\ forall uid, ~ In (GetTeams uid) run.1)
  /\ (forall uid, In (GetTeams uid) run.1 ->
        exists session, getServerSession env = Some session
                        /\ uid = session_user_id session)
  /\ (forall session, getServerSession env = Some session ->
        In (GetTeams (session_user_id session)) run.1
        /\ ~ In (Redirect "/signin") run.1).
Proof.
  intros run. subst run. unfold AuthenticatedTeamsDashboardLayout.
  destruct (getServerSession env) as [s|].
  - destruct (promise_all _ _ _ _ _) as [[u t]|e]; cbn [fst];
      (split; [discriminate|]); (split;
        [ intros uid [H|[H|[H|[]]]]; try discriminate H; injection H as <-; eauto
        | intros s' [= <-]; split; [simpl; tauto | intros [H|[H|[H|[]]]]; discriminate H] ]).
  - split; [intros _; split; [reflexivity | intros uid [H|[H|[]]]; discriminate H]|].
    split; [intros uid [H|[H|[]]]; discriminate H | intros s' H; discriminate H].
Qed.

Lemma layout_redirects_before_fetching_teams_witness :
  AuthenticatedTeamsDashboardLayout LayoutSample.signed_out
  = ([GetServerSession; Redirect "/signin"], Redirected "/signin")
  /\ In (GetTeams 10) (AuthenticatedTeamsDashboardLayout LayoutSample.signed_in).1.
Proof.
  split.
  - exact (proj1 (proj1 (layout_redirects_before_fetching_teams LayoutSample.signed_out)
                    eq_refl)).
  - exact (proj1 (proj2 (proj2 (layout_redirects_before_fetching_teams LayoutSample.signed_in))
                    (mkSession 10) eq_refl)).
Defined.

End TeamsLayout.

(** * Further properties of the code *)

(** ** The workflow *)

Lemma journal_since_app w d cs t n :
  journal_since w (mkWorld d (calls w ++ cs) t n) = cs.
Proof. unfold journal_since. cbn [calls]. apply drop_app_length. Qed.

Lemma journal_since_log w d cs t n c :
  journal_since w (log c (mkWorld d (calls w ++ cs) t n)) = cs ++ [c].
Proof.
  unfold journal_since, log. cbn [calls]. rewrite <- app_assoc. apply drop_app_length.
Qed.

(** X1: the call returns normally only when the caller may manage the team,
    the team has neither an e-mail nor a pending verification, the address is
    in no teamEmail record, the database took the insert and the transport
    took the mail; when one of these fails, the call throws. *)
Theorem addTeamEmailVerification_succeeds_only_if env o w :
  is_ok (addTeamEmailVerification env o w).1 = true ->
  authorized (db w) (userId o) (teamId o) (MANAGE_TEAM env)
  /\ ~ team_has_email (db w) (teamId o)
  /\ ~ team_has_verification (db w) (teamId o)
  /\ ~ email_in_use (db w) (email (data o))
  /\ create_fault env (db w) (verification_of o (minted_token env w)) = None
  /\ exists t,
       lookup_team env o (db w) = Some t
       /\ mail_fault env
            (mail_of env (email (data o)) (token (minted_token env w))
               (team_name t) (team_url t)) = None.
Proof.
  rewrite addTeamEmailVerification_run.
  destruct (transaction_cases env o w)
    as [[Hno ->]|[(_ & Hhas & ->)|[(_ & _ & Huse & ->)|(t & Ht & Ha & Hfree & Hnew & H)]]];
    try discriminate.
  cbn zeta in H. destruct H as [(e & Hc & ->)|[(e & Hc & Hm & ->)|(Hc & Hm & ->)]];
    try discriminate.
  intros _. split; [exact Ha|]. split; [tauto|]. split; [tauto|].
  split; [exact Hnew|]. split; [exact Hc|].
  exists t. split; [exact Ht | exact Hm].
Qed.

Lemma addTeamEmailVerification_succeeds_only_if_witness :
  is_ok (addTeamEmailVerification Sample.env Sample.admin_claim Sample.world).1 = true
  /\ authorized (db Sample.world) 10 1 ["ADMIN"; "MANAGER"]
  /\ ~ team_has_email (db Sample.world) 1
  /\ ~ email_in_use (db Sample.world) "team@acme.io".
Proof.
  assert (H : is_ok (addTeamEmailVerification Sample.env Sample.admin_claim
                       Sample.world).1 = true) by (vm_compute; reflexivity).
  split; [exact H|].
  destruct (addTeamEmailVerification_succeeds_only_if
              Sample.env Sample.admin_claim Sample.world H)
    as (Ha & He & _ & Hu & _).
  split; [exact Ha|]. split; [exact He | exact Hu].
Defined.

(** X2: after a successful claim, a further claim for the same team by any
    of its managers is refused with INVALID_REQUEST, whatever the address:
    the pending verification blocks it, and the database stays as the first
    call left it. *)
Theorem addTeamEmailVerification_second_claim_refused env o o' w w1 :
  addTeamEmailVerification env o w = (Ok tt, w1) ->
  teamId o' = teamId o ->
  authorized (db w) (userId o') (teamId o) (MANAGE_TEAM env) ->
  (addTeamEmailVerification env o' w1).1
  = Throw (AppError INVALID_REQUEST
             "Team already has an email or existing email verification.")
  /\ db (addTeamEmailVerification env o' w1).2 = db w1
  /\ journal_since w1 (addTeamEmailVerification env o' w1).2
     = [TxBegin; TeamFindFirstOrThrow (teamId o) (userId o') (MANAGE_TEAM env);
        TxRollback;
        ConsoleError (AppError INVALID_REQUEST
                        "Team already has an email or existing email verification.")].
Proof.
  intros Hrun Htid Ha.
  rewrite addTeamEmailVerification_run in Hrun.
  destruct (transaction_cases env o w)
    as [[_ H]|[(_ & _ & H)|[(_ & _ & _ & H)|(t & _ & _ & _ & _ & H)]]];
    try (rewrite H in Hrun; discriminate Hrun).
  cbn zeta in H. destruct H as [(e & _ & H)|[(e & _ & _ & H)|(_ & _ & H)]];
    try (rewrite H in Hrun; discriminate Hrun).
  rewrite H in Hrun. injection Hrun as <-. clear H.
  set (v := verification_of o (minted_token env w)).
  set (w1 := mkWorld _ _ _ _).
  assert (Ha1 : authorized (db w1) (userId o') (teamId o') (MANAGE_TEAM env)).
  { rewrite Htid. exact Ha. }
  assert (Hv1 : team_has_verification (db w1) (teamId o')).
  { exists v. split; [|symmetry; exact Htid].
    cbn. apply in_or_app. right. left. reflexivity. }
  rewrite addTeamEmailVerification_run.
  destruct (transaction_cases env o' w1)
    as [[Hno _]|[(_ & _ & ->)|[(_ & Hfree & _)|(t' & _ & _ & Hfree & _)]]];
    try tauto.
  rewrite Htid. cbn [fst snd].
  split; [reflexivity|]. split; [reflexivity|].
  apply journal_since_log.
Qed.

Lemma addTeamEmailVerification_second_claim_refused_witness :
  let first := addTeamEmailVerification Sample.env Sample.admin_claim Sample.world in
  first.1 = Ok tt
  /\ (addTeamEmailVerification Sample.env Sample.taken_claim first.2).1
     = Throw (AppError INVALID_REQUEST
                "Team already has an email or existing email verification.")
  /\ db (addTeamEmailVerification Sample.env Sample.taken_claim first.2).2 = db first.2.
Proof.
  assert (Hrun : addTeamEmailVerification Sample.env Sample.admin_claim Sample.world
                 = (Ok tt, (addTeamEmailVerification Sample.env Sample.admin_claim
                              Sample.world).2))
    by (vm_compute; reflexivity).
  assert (Ha : authorized (db Sample.world) (userId Sample.taken_claim)
                 (teamId Sample.admin_claim) (MANAGE_TEAM Sample.env)).
  { rewrite <- find_team_authorized. vm_compute. reflexivity. }
  split; [vm_compute; reflexivity|].
  pose proof (addTeamEmailVerification_second_claim_refused
                Sample.env Sample.admin_claim Sample.taken_claim Sample.world _
                Hrun eq_refl Ha) as (H1 & H2 & _).
  split; [exact H1 | exact H2].
Defined.

(** X3: the tables of teams, of members and of confirmed team e-mails are
    never written, and the table of verifications only grows, by at most one
    row at its end. *)
Theorem addTeamEmailVerification_frame env o w :
  let d' := db (addTeamEmailVerification env o w).2 in
  teams d' = teams (db w)
  /\ teamMembers d' = teamMembers (db w)
  /\ teamEmails d' = teamEmails (db w)
  /\ exists added,
       teamEmailVerifications d' = teamEmailVerifications (db w) ++ added
       /\ (length added <= 1)%nat.
Proof.
  intros d'. subst d'. rewrite addTeamEmailVerification_run.
  assert (Hsame : forall d : DB,
             teams d = teams d /\ teamMembers d = teamMembers d
             /\ teamEmails d = teamEmails d
             /\ exists added,
                  teamEmailVerifications d = teamEmailVerifications d ++ added
                  /\ (length added <= 1)%nat).
  { intros d. repeat split. exists []. rewrite app_nil_r. split; [reflexivity | simpl; lia]. }
  destruct (transaction_cases env o w)
    as [[_ ->]|[(_ & _ & ->)|[(_ & _ & _ & ->)|(t & _ & _ & _ & _ & H)]]];
    try apply Hsame.
  cbn zeta in H. destruct H as [(e & _ & ->)|[(e & _ & _ & ->)|(_ & _ & ->)]];
    try apply Hsame.
  cbn [fst snd db insert_verification teams teamMembers teamEmails teamEmailVerifications].
  repeat split. eexists. split; [reflexivity | simpl; lia].
Qed.

(** X4: a call that runs on its own, with no other write to the database
    between its checks and its insert, keeps the claims consistent: when no
    team has two pending verifications and none has one beside a confirmed
    e-mail before the call, the same holds after it, by the checks of the
    function itself. *)
Theorem addTeamEmailVerification_keeps_claims_consistent env o w :
  claims_consistent (db w) ->
  claims_consistent (db (addTeamEmailVerification env o w).2).
Proof.
  intros Hc. rewrite addTeamEmailVerification_run.
  destruct (transaction_cases env o w)
    as [[_ ->]|[(_ & _ & ->)|[(_ & _ & _ & ->)|(t & _ & _ & Hfree & _ & H)]]];
    try exact Hc.
  cbn zeta in H. destruct H as [(e & _ & ->)|[(e & _ & _ & ->)|(_ & _ & ->)]];
    try exact Hc.
  cbn [fst snd db]. destruct Hc as [Hnd Hmail].
  set (v := verification_of o (minted_token env w)).
  unfold claims_consistent, insert_verification, team_has_email.
  cbn [teamEmailVerifications teamEmails]. split.
  - rewrite map_app. apply NoDup_app. split; [exact Hnd|]. split.
    + intros tid Hin Hv. apply list_elem_of_In in Hin. apply in_map_iff in Hin.
      destruct Hin as (v' & Hid & Hin'). cbn in Hv.
      apply list_elem_of_In in Hv. destruct Hv as [<-|[]].
      apply Hfree. right. exists v'. split; [exact Hin' | exact Hid].
    + cbn. apply NoDup_singleton.
  - intros v' Hin. apply in_app_or in Hin as [Hin|[<-|[]]].
    + exact (Hmail v' Hin).
    + intros He. apply Hfree. left. exact He.
Qed.

Lemma addTeamEmailVerification_keeps_claims_consistent_witness :
  let after := db (addTeamEmailVerification Sample.env Sample.admin_claim busy_world).2 in
  claims_consistent busy_database
  /\ map tev_teamId (teamEmailVerifications after) = [3%Z; 1%Z]
  /\ claims_consistent after.
Proof.
  assert (H : claims_consistent (db busy_world)).
  { split.
    - cbn. apply NoDup_singleton.
    - intros v [<-|[]] (e & [<-|[]] & He). discriminate He. }
  split; [exact H|]. split; [vm_compute; reflexivity|].
  exact (addTeamEmailVerification_keeps_claims_consistent
           Sample.env Sample.admin_claim busy_world H).
Defined.

(** X5: a call hands the mailer at most one mail and makes at most one
    insert.  A mail is the call right after the insert of the verification it
    announces, an insert the database took; it goes to the address of that
    record and both its bodies carry the token of that record; the rest of the
    journal holds no other mail and no other insert.  A refused insert sends
    nothing. *)
Theorem addTeamEmailVerification_mail_follows_insert env o w :
  let journal := journal_since w (addTeamEmailVerification env o w).2 in
  (length (List.filter is_mail journal) <= 1)%nat
  /\ (length (List.filter is_create journal) <= 1)%nat
  /\ (forall m, In (SendMail m) journal ->
        exists before after v tpl,
          journal = before ++ [TeamEmailVerificationCreate v; SendMail m] ++ after
          /\ (forall c, In c (before ++ after) -> is_mail c = false /\ is_create c = false)
          /\ create_fault env (db w) v = None
          /\ mail_to m = tev_email v
          /\ html m = render env tpl false
          /\ text m = render env tpl true
          /\ tpl_token tpl = tev_token v)
  /\ (forall v, In (TeamEmailVerificationCreate v) journal ->
        create_fault env (db w) v <> None ->
        forall c, In c journal -> is_mail c = false).
Proof.
  intros journal. subst journal. rewrite addTeamEmailVerification_run.
  destruct (transaction_cases env o w)
    as [[_ ->]|[(_ & _ & ->)|[(_ & _ & _ & ->)|(t & _ & _ & _ & _ & H)]]].
  1-3: cbn [fst snd]; rewrite journal_since_log; cbn;
       (split; [lia|]); (split; [lia|]); split;
       [ intros m Hin; repeat (destruct Hin as [Hin|Hin]; try discriminate Hin);
         contradiction
       | intros v Hin; repeat (destruct Hin as [Hin|Hin]; try discriminate Hin);
         contradiction ].
  cbn zeta in H. destruct H as [(e & Hc & ->)|[(e & Hc & Hm & ->)|(Hc & Hm & ->)]].
  - cbn [fst snd]; rewrite journal_since_log; cbn.
    split; [lia|]. split; [lia|]. split.
    + intros m Hin; repeat (destruct Hin as [Hin|Hin]; try discriminate Hin);
        contradiction.
    + intros v _ _ c Hin.
      repeat (destruct Hin as [<-|Hin]; [reflexivity|]). contradiction.
  - cbn [fst snd]. rewrite journal_since_log. cbn [app mint_calls].
    split; [cbn; lia|]. split; [cbn; lia|]. split.
    + intros m Hin.
      repeat (destruct Hin as [Hin|Hin]; try discriminate Hin); try contradiction.
      injection Hin as <-.
      eexists [_; _; _; _; _; _], [_; _], _, (template_of env _ _ _).
      split; [reflexivity|]. split.
      { intros c Hin. cbn in Hin.
        repeat (destruct Hin as [<-|Hin]; [split; reflexivity|]). contradiction. }
      split; [exact Hc|]. repeat split.
    + intros v Hin Hfault. exfalso.
      repeat (destruct Hin as [Hin|Hin]; try discriminate Hin); try contradiction.
      injection Hin as <-. exact (Hfault Hc).
  - cbn [fst snd]. rewrite journal_since_app. cbn [app mint_calls].
    split; [cbn; lia|]. split; [cbn; lia|]. split.
    + intros m Hin.
      repeat (destruct Hin as [Hin|Hin]; try discriminate Hin); try contradiction.
      injection Hin as <-.
      eexists [_; _; _; _; _; _], [_], _, (template_of env _ _ _).
      split; [reflexivity|]. split.
      { intros c Hin. cbn in Hin.
        repeat (destruct Hin as [<-|Hin]; [split; reflexivity|]). contradiction. }
      split; [exact Hc|]. repeat split.
    + intros v Hin Hfault. exfalso.
      repeat (destruct Hin as [Hin|Hin]; try discriminate Hin); try contradiction.
      injection Hin as <-. exact (Hfault Hc).
Qed.

Lemma addTeamEmailVerification_mail_follows_insert_witness :
  let journal :=
    journal_since Sample.world
      (addTeamEmailVerification Sample.env_no_mail Sample.admin_claim Sample.world).2 in
  let refused :=
    journal_since Sample.world
      (addTeamEmailVerification Sample.env_conflict Sample.admin_claim Sample.world).2 in
  (exists m before after v tpl,
     In (SendMail m) journal
     /\ journal = before ++ [TeamEmailVerificationCreate v; SendMail m] ++ after
     /\ (forall c, In c (before ++ after) -> is_mail c = false /\ is_create c = false)
     /\ create_fault Sample.env_no_mail (db Sample.world) v = None
     /\ mail_to m = tev_email v
     /\ html m = render Sample.env_no_mail tpl false
     /\ text m = render Sample.env_no_mail tpl true
     /\ tpl_token tpl = tev_token v)
  /\ List.filter is_mail refused = [].
Proof.
  cbv zeta.
  set (m := mail_of Sample.env_no_mail "team@acme.io"
              (token (minted_token Sample.env_no_mail Sample.world)) "Acme" "acme").
  assert (Hin : In (SendMail m)
                  (journal_since Sample.world
                     (addTeamEmailVerification Sample.env_no_mail Sample.admin_claim
                        Sample.world).2)).
  { vm_compute. do 7 right. left. reflexivity. }
  split; [|vm_compute; reflexivity].
  destruct (proj1 (proj2 (proj2 (addTeamEmailVerification_mail_follows_insert
                                   Sample.env_no_mail Sample.admin_claim Sample.world)))
              m Hin)
    as (before & after & v & tpl & H).
  exists m, before, after, v, tpl. split; [exact Hin | exact H].
Defined.

(** X6: the caller never sees the database's own report of an e-mail conflict:
    whatever is thrown is not a Prisma P2002 error whose target is an array of
    strings with 'email'. *)
Theorem addTeamEmailVerification_never_leaks_email_conflict env o w e :
  (addTeamEmailVerification env o w).1 = Throw e -> ~ email_conflict e.
Proof.
  rewrite addTeamEmailVerification_run.
  destruct (transaction (transaction_body env o) w) as [[[]|e0] w']; [discriminate|].
  cbn [fst]. intros [= <-] Hconf.
  destruct (rethrown_spec e0) as [Hyes Hno].
  assert (Hdec : email_conflict e0 \/ ~ email_conflict e0).
  { destruct e0 as [c m|code meta|n m];
      try (right; intros (meta' & targets & Heq & _); discriminate Heq).
    destruct (is_email_conflict code meta) eqn:E.
    - left. unfold is_email_conflict in E. apply andb_true_iff in E as [Hcode E].
      apply String.eqb_eq in Hcode. subst code.
      destruct (zod_string_array_safeParse (meta_target meta)) as [targets|] eqn:Ht;
        [|discriminate].
      exists meta, targets. split; [reflexivity|].
      split; [apply zod_string_array_safeParse_spec; exact Ht | apply includes_In; exact E].
    - right. intros (meta' & targets & [= -> ->] & Ht & Hin).
      unfold is_email_conflict in E. rewrite String.eqb_refl in E.
      apply zod_string_array_safeParse_spec in Ht. rewrite Ht in E.
      apply includes_In in Hin. cbn in E. congruence. }
  destruct Hdec as [H|H].
  - rewrite (Hyes H) in Hconf. destruct Hconf as (meta & targets & Heq & _).
    discriminate Heq.
  - rewrite (Hno H) in Hconf. contradiction.
Qed.

Lemma addTeamEmailVerification_never_leaks_email_conflict_witness :
  email_conflict Sample.unique_violation
  /\ (addTeamEmailVerification Sample.env_conflict Sample.admin_claim Sample.world).1
     = Throw email_taken
  /\ ~ email_conflict email_taken.
Proof.
  assert (H : (addTeamEmailVerification Sample.env_conflict Sample.admin_claim
                 Sample.world).1 = Throw email_taken) by (vm_compute; reflexivity).
  split.
  - exists (Some (<["target" := JArr [JStr "email"]]> ∅)), ["email"].
    split; [reflexivity|]. split; [vm_compute; reflexivity | left; reflexivity].
  - split; [exact H|].
    exact (addTeamEmailVerification_never_leaks_email_conflict
             Sample.env_conflict Sample.admin_claim Sample.world email_taken H).
Defined.

(** X7: a request that is turned down before the mint -- no permission, a
    team that has its e-mail or a pending verification, an address in use --
    reads no clock and draws no random byte; every other request reads the
    clock twice and draws 32 bytes, whether or not it then succeeds. *)
Theorem addTeamEmailVerification_mints_only_after_checks env o w :
  let run := addTeamEmailVerification env o w in
  let passes :=
    authorized (db w) (userId o) (teamId o) (MANAGE_TEAM env)
    /\ ~ (team_has_email (db w) (teamId o) \/ team_has_verification (db w) (teamId o))
    /\ ~ email_in_use (db w) (email (data o)) in
  (~ passes /\ ticks run.2 = ticks w /\ drawn run.2 = drawn w
   /\ forall c, In c (journal_since w run.2) -> kind c <> KNanoid /\ kind c <> KDateNow)
  \/
  (passes /\ ticks run.2 = S (S (ticks w)) /\ drawn run.2 = (drawn w + 32)%nat
   /\ In (Nanoid 32 (token (minted_token env w))) (journal_since w run.2)).
Proof.
  intros run passes. subst run passes. rewrite addTeamEmailVerification_run.
  destruct (transaction_cases env o w)
    as [[Hno ->]|[(_ & Hhas & ->)|[(_ & _ & Huse & ->)|(t & _ & Ha & Hfree & Hnew & H)]]].
  1-3: left; cbn [fst snd]; rewrite journal_since_log; cbn;
       (split; [tauto|]); (split; [reflexivity|]); (split; [reflexivity|]);
       intros c Hin; repeat (destruct Hin as [<-|Hin]; [split; discriminate|]);
       contradiction.
  right. split; [tauto|].
  cbn zeta in H. destruct H as [(e & _ & ->)|[(e & _ & _ & ->)|(_ & _ & ->)]];
    cbn [fst snd]; rewrite ?journal_since_log, ?journal_since_app; cbn;
    (split; [reflexivity|]); (split; [reflexivity|]); tauto.
Qed.

(** ** The token *)

(** X8: with a clock that does not run backwards between the two readings,
    the token record never promises more than ten minutes from its
    [createdAt], and it falls short of ten minutes by exactly the time the
    mint took. *)
Theorem generateTeamEmailVerificationToken_lifetime env w :
  (clock env (ticks w) <= clock env (S (ticks w)))%Z ->
  exists tok w',
    generateTeamEmailVerificationToken env w = (Ok tok, w')
    /\ (expiresAt tok <= createdAt tok + 10 * 60 * 1000)%Z
    /\ (createdAt tok + 10 * 60 * 1000 - expiresAt tok
        = clock env (S (ticks w)) - clock env (ticks w))%Z
    /\ db w' = db w.
Proof.
  intros Hmono. do 2 eexists.
  split; [apply generateTeamEmailVerificationToken_run|].
  cbn [minted_token expiresAt createdAt db]. unfold ten_minutes.
  split; [lia|]. split; [lia | reflexivity].
Qed.

Lemma generateTeamEmailVerificationToken_lifetime_witness :
  (clock Sample.env 0 <= clock Sample.env 1)%Z
  /\ exists tok w',
       generateTeamEmailVerificationToken Sample.env Sample.world = (Ok tok, w')
       /\ (expiresAt tok <= createdAt tok + 10 * 60 * 1000)%Z
       /\ (createdAt tok + 10 * 60 * 1000 - expiresAt tok
           = clock Sample.env 1 - clock Sample.env 0)%Z
       /\ db w' = db Sample.world.
Proof.
  assert (H : (clock Sample.env (ticks Sample.world)
               <= clock Sample.env (S (ticks Sample.world)))%Z)
    by (vm_compute; discriminate).
  split; [exact H|].
  exact (generateTeamEmailVerificationToken_lifetime Sample.env Sample.world H).
Defined.

(** ** The mail *)

(** X9: the asset base url of the template is NEXT_PUBLIC_WEBAPP_URL when
    that is set to a non-empty string, and 'http://localhost:3000' both when
    it is unset and when it is the empty string. *)
Theorem sendTeamEmailVerificationEmail_asset_base_url env address tok teamName teamUrl w :
  let asset :=
    match NEXT_PUBLIC_WEBAPP_URL env with
    | None => "http://localhost:3000"
    | Some url => if String.eqb url EmptyString then "http://localhost:3000" else url
    end in
  journal_since w (sendTeamEmailVerificationEmail env address tok teamName teamUrl w).2
  = [SendMail
       (mkMail address (FROM_NAME env) (FROM_ADDRESS env) (mail_subject teamName)
          (render env (mkTemplate asset (WEBAPP_BASE_URL env) teamName teamUrl tok) false)
          (render env (mkTemplate asset (WEBAPP_BASE_URL env) teamName teamUrl tok) true))].
Proof.
  intros asset.
  assert (Hasset : or_default (NEXT_PUBLIC_WEBAPP_URL env) "http://localhost:3000" = asset).
  { subst asset. destruct (NEXT_PUBLIC_WEBAPP_URL env) as [[|c s]|]; reflexivity. }
  unfold sendTeamEmailVerificationEmail, mailer_sendMail. rewrite Hasset.
  unfold journal_since, log.
  destruct (mail_fault env _); cbn [snd calls]; apply drop_app_length.
Qed.

(** ** The catch block at its edges *)

(** X10: a P2002 error whose target array holds anything that is not a
    string is rethrown as it is, even with 'email' among its elements; so is a
    P2002 error with no meta at all. *)
Theorem on_error_keeps_malformed_target code meta xs w :
  (meta = None \/ (meta_target meta = JArr xs /\ exists x, In x xs /\ zod_string x = None)) ->
  on_error (PrismaClientKnownRequestError code meta) w
  = (Throw (PrismaClientKnownRequestError code meta),
     log (ConsoleError (PrismaClientKnownRequestError code meta)) w).
Proof.
  intros H. rewrite on_error_run. f_equal. f_equal.
  unfold rethrown, is_email_conflict.
  assert (Hparse : zod_string_array_safeParse (meta_target meta) = None).
  { destruct H as [->|(Ht & x & Hin & Hx)]; [reflexivity|].
    rewrite Ht. cbn. destruct (mapM zod_string xs) as [ys|] eqn:E; [|reflexivity].
    apply mapM_Some in E. exfalso. clear Ht.
    induction E as [|a b l k Hab _ IH]; [contradiction|].
    destruct Hin as [->|Hin]; [congruence | exact (IH Hin)]. }
  rewrite Hparse, andb_false_r. reflexivity.
Qed.

Lemma on_error_keeps_malformed_target_witness :
  let meta := Some (<["target" := JArr [JStr "email"; JNum 1]]> (∅ : gmap string JsVal)) in
  on_error (PrismaClientKnownRequestError "P2002" meta) Sample.world
  = (Throw (PrismaClientKnownRequestError "P2002" meta),
     log (ConsoleError (PrismaClientKnownRequestError "P2002" meta)) Sample.world).
Proof.
  refine (on_error_keeps_malformed_target "P2002" _ [JStr "email"; JNum 1] Sample.world _).
  right. split; [vm_compute; reflexivity|].
  exists (JNum 1). split; [right; left; reflexivity | reflexivity].
Defined.

(** ** The URL search params of the table *)

Section SearchParams.

Import TeamsDataTable.

Lemma fromEntries_snoc (l : list (string * string)) (kv : string * string) :
  fromEntries (l ++ [kv]) = <[kv.1 := kv.2]> (fromEntries l).
Proof. unfold fromEntries. rewrite foldl_app. reflexivity. Qed.

Lemma getAll_app name (l k : list (string * string)) :
  getAll name (l ++ k) = getAll name l ++ getAll name k.
Proof. unfold getAll. rewrite List.filter_app, map_app. reflexivity. Qed.

Lemma getAll_delete_same name params : getAll name (usp_delete name params) = [].
Proof.
  unfold getAll, usp_delete. induction params as [|kv rest IH]; [reflexivity|].
  simpl. destruct (String.eqb kv.1 name) eqn:E; simpl; [exact IH|].
  rewrite E. exact IH.
Qed.

Lemma getAll_delete_other name k params :
  k <> name -> getAll k (usp_delete name params) = getAll k params.
Proof.
  intros Hne. unfold getAll, usp_delete.
  induction params as [|kv rest IH]; [reflexivity|].
  simpl. destruct (String.eqb kv.1 name) eqn:E; simpl.
  - apply String.eqb_eq in E.
    destruct (String.eqb kv.1 k) eqn:Ek; [|exact IH].
    apply String.eqb_eq in Ek. congruence.
  - destruct (String.eqb kv.1 k); simpl; now rewrite IH.
Qed.

Lemma getAll_set_same name value params : getAll name (usp_set name value params) = [value].
Proof.
  induction params as [|kv rest IH]; simpl.
  - unfold getAll. simpl. now rewrite String.eqb_refl.
  - destruct (String.eqb kv.1 name) eqn:E.
    + change ((name, value) :: usp_delete name rest)
        with ([(name, value)] ++ usp_delete name rest).
      rewrite getAll_app, getAll_delete_same. unfold getAll. simpl.
      now rewrite String.eqb_refl.
    + unfold getAll in *. simpl. rewrite E. exact IH.
Qed.

Lemma getAll_cons name (kv : string * string) (l : list (string * string)) :
  getAll name (kv :: l)
  = (if String.eqb kv.1 name then [kv.2] else []) ++ getAll name l.
Proof. unfold getAll. simpl. destruct (String.eqb kv.1 name); reflexivity. Qed.

Lemma getAll_set_other name value k params :
  k <> name -> getAll k (usp_set name value params) = getAll k params.
Proof.
  intros Hne.
  assert (Hnk : String.eqb name k = false).
  { destruct (String.eqb name k) eqn:E; [|reflexivity].
    apply String.eqb_eq in E. congruence. }
  induction params as [|kv rest IH]; simpl.
  - rewrite getAll_cons. cbn [fst]. rewrite Hnk. reflexivity.
  - destruct (String.eqb kv.1 name) eqn:E.
    + apply String.eqb_eq in E.
      rewrite !getAll_cons, getAll_delete_other by exact Hne.
      cbn [fst]. rewrite E, Hnk. reflexivity.
    + rewrite !getAll_cons, IH. reflexivity.
Qed.

Lemma fromEntries_lookup_last (entries : list (string * string)) (k : string) :
  fromEntries entries !! k = last (getAll k entries).
Proof.
  induction entries as [|kv rest IH] using rev_ind; [reflexivity|].
  rewrite fromEntries_snoc, getAll_app, getAll_cons.
  destruct (String.eqb kv.1 k) eqn:E.
  - apply String.eqb_eq in E. subst k. rewrite lookup_insert_eq.
    cbn [app getAll map List.filter]. now rewrite last_snoc.
  - assert (Hne : kv.1 <> k).
    { intros Heq. rewrite Heq, String.eqb_refl in E. discriminate. }
    rewrite lookup_insert_ne by exact Hne.
    cbn [app getAll map List.filter]. now rewrite app_nil_r.
Qed.

(** X11: [Object.fromEntries] over the URL search params keeps, for a name
    that occurs more than once, the value of its last occurrence, and has no
    key for a name that does not occur. *)
Theorem fromEntries_last_wins (k v : string) (earlier later : list (string * string)) :
  getAll k later = [] ->
  fromEntries (earlier ++ (k, v) :: later) !! k = Some v
  /\ fromEntries later !! k = None.
Proof.
  intros Hlater. rewrite !fromEntries_lookup_last, getAll_app, getAll_cons, Hlater.
  cbn [fst snd]. rewrite String.eqb_refl, app_nil_r. split; [|reflexivity].
  apply last_snoc.
Qed.

Lemma fromEntries_last_wins_witness :
  getAll "page" [("perPage", "20")] = []
  /\ fromEntries ([("page", "1")] ++ ("page", "2") :: [("perPage", "20")]) !! "page"
     = Some "2"
  /\ fromEntries [("perPage", "20")] !! "page" = None.
Proof.
  assert (H : getAll "page" [("perPage", "20")] = []) by reflexivity.
  split; [exact H|].
  exact (fromEntries_last_wins "page" "2" [("page", "1")] [("perPage", "20")] H).
Defined.

(** What the search effect pushes. *)
Lemma search_effect_pushed h path params :
  In (RouterPush path params) (search_effect h) ->
  params
  = (if is_empty (debouncedSearchQuery h)
     then usp_delete "query"
            (usp_set "query" (debouncedSearchQuery h) (default [] (searchParams h)))
     else usp_set "query" (debouncedSearchQuery h) (default [] (searchParams h))).
Proof.
  unfold search_effect. destruct (pathname h) as [[|c s]|]; try contradiction.
  intros [[= _ <-]|[]]. reflexivity.
Qed.

(** X12: the route the search box pushes holds the search term once, under
    [query], however many [query] pairs the URL had; with an empty search box
    it holds no [query] pair at all. *)
Theorem search_effect_query_once h path params :
  In (RouterPush path params) (search_effect h) ->
  getAll "query" params
  = if is_empty (debouncedSearchQuery h) then [] else [debouncedSearchQuery h].
Proof.
  intros Hin. rewrite (search_effect_pushed h path params Hin).
  destruct (is_empty (debouncedSearchQuery h)).
  - apply getAll_delete_same.
  - apply getAll_set_same.
Qed.

Lemma search_effect_query_once_witness :
  In (RouterPush "/teams" [("page", "2"); ("query", "beta")])
     (search_effect (mkHooks (Some [("page", "2"); ("query", "a"); ("query", "b")])
                       (Some "/teams") "beta"))
  /\ getAll "query" [("page", "2"); ("query", "beta")] = ["beta"].
Proof.
  assert (H : In (RouterPush "/teams" [("page", "2"); ("query", "beta")])
                (search_effect (mkHooks (Some [("page", "2"); ("query", "a"); ("query", "b")])
                                  (Some "/teams") "beta")))
    by (left; reflexivity).
  split; [exact H|].
  exact (search_effect_query_once _ _ _ H).
Defined.

(** X13: the render that follows a search sees it: the object parsed from the
    pushed params has [query] equal to the search term (no [query] key for an
    empty search box), and every other key as the object of the current URL
    has it. *)
Theorem search_effect_then_fromEntries h path params :
  In (RouterPush path params) (search_effect h) ->
  fromEntries params !! "query"
  = (if is_empty (debouncedSearchQuery h) then None else Some (debouncedSearchQuery h))
  /\ forall k, k <> "query" ->
       fromEntries params !! k = fromEntries (default [] (searchParams h)) !! k.
Proof.
  intros Hin. split.
  - rewrite fromEntries_lookup_last, (search_effect_pushed h path params Hin).
    destruct (is_empty (debouncedSearchQuery h)).
    + now rewrite getAll_delete_same.
    + now rewrite getAll_set_same.
  - intros k Hne. rewrite !fromEntries_lookup_last. f_equal.
    rewrite (search_effect_pushed h path params Hin).
    destruct (is_empty (debouncedSearchQuery h)).
    + rewrite getAll_delete_other by exact Hne. apply getAll_set_other. exact Hne.
    + apply getAll_set_other. exact Hne.
Qed.

Lemma search_effect_then_fromEntries_witness :
  In (RouterPush "/teams" [("query", "beta"); ("page", "2"); ("perPage", "20")])
     (search_effect TableSample.hooks)
  /\ fromEntries [("query", "beta"); ("page", "2"); ("perPage", "20")] !! "query"
     = Some "beta"
  /\ fromEntries [("query", "beta"); ("page", "2"); ("perPage", "20")] !! "page"
     = fromEntries [("query", "acme"); ("page", "2"); ("perPage", "20")] !! "page".
Proof.
  assert (H : In (RouterPush "/teams" [("query", "beta"); ("page", "2"); ("perPage", "20")])
                (search_effect TableSample.hooks)) by (left; reflexivity).
  split; [exact H|].
  destruct (search_effect_then_fromEntries _ _ _ H) as [Hq Hk].
  split; [exact Hq|].
  exact (Hk "page" ltac:(discriminate)).
Defined.

End SearchParams.

(** ** What the table shows *)

Section TableView.

Import TeamsTableView.

(** X14: the spinner of the search box and the skeleton of the table are
    never on together, and the spinner is on only while a refetch shows the
    previous page. *)
Theorem loader_and_skeleton_exclusive (q : QueryState) :
  (input_loading q && skeleton_enable q = false)
  /\ (input_loading q = true ->
        isFetching q = true /\ isPreviousData q = true /\ skeleton_enable q = false).
Proof.
  unfold input_loading, skeleton_enable.
  destruct (isFetching q), (isInitialLoading q), (isPreviousData q), (isLoading q);
    cbn; split; try reflexivity; try discriminate; intros _; repeat split.
Qed.

Lemma loader_and_skeleton_exclusive_witness :
  input_loading (mkQueryState None false false false true true) = true
  /\ skeleton_enable (mkQueryState None false false false true true) = false.
Proof.
  split; [reflexivity|].
  exact (proj2 (proj2 (proj2 (loader_and_skeleton_exclusive
                                (mkQueryState None false false false true true))
                         eq_refl))).
Defined.

(** X15: the owner of a team is shown as 'Owner', whatever the member role,
    and cannot leave; a disabled Leave button always stands beside 'Owner';
    and when no role is labelled 'Owner', the rows shown as 'Owner' are
    exactly the rows whose Leave button is disabled. *)
Theorem owner_row_cannot_leave (role_map : Role -> option string) (r : TeamRow) :
  (row_ownerUserId r = cm_userId (currentTeamMember r) ->
     role_cell role_map r = Some "Owner" /\ leave_disabled r = true)
  /\ (leave_disabled r = true -> role_cell role_map r = Some "Owner")
  /\ (row_ownerUserId r <> cm_userId (currentTeamMember r) ->
        role_cell role_map r = role_map (cm_role (currentTeamMember r))
        /\ leave_disabled r = false)
  /\ ((forall role, role_map role <> Some "Owner") ->
        (role_cell role_map r = Some "Owner" <-> leave_disabled r = true)).
Proof.
  unfold role_cell, leave_disabled.
  destruct (Z.eqb (row_ownerUserId r) (cm_userId (currentTeamMember r))) eqn:E.
  - apply Z.eqb_eq in E.
    split; [intros _; split; reflexivity|]. split; [reflexivity|].
    split; [intros H; contradiction|]. intros _. split; reflexivity.
  - apply Z.eqb_neq in E.
    split; [intros H; contradiction|]. split; [discriminate|].
    split; [intros _; split; reflexivity|].
    intros Hmap. split; [intros H; exfalso; exact (Hmap _ H) | discriminate].
Qed.

Lemma owner_row_cannot_leave_witness :
  let owner := mkTeamRow 1 "Acme" "acme" 10 0 (mkCurrentTeamMember 10 "ADMIN") in
  let other := mkTeamRow 1 "Acme" "acme" 10 0 (mkCurrentTeamMember 11 "ADMIN") in
  (role_cell sample_role_map owner = Some "Owner" /\ leave_disabled owner = true)
  /\ (role_cell sample_role_map other = Some "Admin" /\ leave_disabled other = false).
Proof.
  split.
  - exact (proj1 (owner_row_cannot_leave sample_role_map
                    (mkTeamRow 1 "Acme" "acme" 10 0 (mkCurrentTeamMember 10 "ADMIN")))
             eq_refl).
  - exact (proj1 (proj2 (proj2 (owner_row_cannot_leave sample_role_map
                                  (mkTeamRow 1 "Acme" "acme" 10 0
                                     (mkCurrentTeamMember 11 "ADMIN")))))
             ltac:(discriminate)).
Defined.

End TableView.

(** ** The outcomes of the layout *)

Section LayoutOutcome.

Import Layout.

(** X16: once the session call has resolved, the layout renders exactly when
    there is a session and both fetches resolved, with the user of
    getRequiredServerComponentSession and the teams of getTeams for the
    session's user id; it redirects, to '/signin', exactly when there is no
    session, and then starts no fetch; and with a session it fails exactly
    when one of the two fetches rejects, with the error of one of them. *)
Theorem layout_outcome {User Teams} (env : LayoutEnv User Teams) :
  let run := AuthenticatedTeamsDashboardLayout env in
  (forall session user teams,
     run.2 = Rendered session user teams
     <-> getServerSession env = Some session
         /\ getRequiredServerComponentSession env = Ok user
         /\ getTeams env (session_user_id session) = Ok teams)
  /\ (forall url,
        run.2 = Redirected url <-> getServerSession env = None /\ url = "/signin")
  /\ (getServerSession env = None -> run.1 = [GetServerSession; Redirect "/signin"])
  /\ (forall session e,
        getServerSession env = Some session ->
        run.2 = Rejected e ->
        getRequiredServerComponentSession env = Throw e
        \/ getTeams env (session_user_id session) = Throw e)
  /\ (forall session,
        getServerSession env = Some session ->
        ((exists e, run.2 = Rejected e)
         <-> (exists e, getRequiredServerComponentSession env = Throw e)
             \/ (exists e, getTeams env (session_user_id session) = Throw e))).
Proof.
  intros run. subst run. unfold AuthenticatedTeamsDashboardLayout.
  destruct (getServerSession env) as [s|].
  2:{ cbn. split; [intros; split; [discriminate | intros [H _]; discriminate H]|].
      split; [intros url; split; [intros [= <-]; split; reflexivity
                                 | intros [_ ->]; reflexivity]|].
      split; [reflexivity|].
      split; [intros ? ? H; discriminate H | intros ? H; discriminate H]. }
  unfold promise_all.
  destruct (getRequiredServerComponentSession env) as [u|e1] eqn:Hu;
    destruct (getTeams env (session_user_id s)) as [t|e2] eqn:Ht; cbn.
  - split.
    { intros s' u' t'. split.
      - intros [= <- <- <-]. split; [reflexivity|]. split; [reflexivity | exact Ht].
      - intros ([= <-] & [= <-] & Ht'). rewrite Ht in Ht'. injection Ht' as <-.
        reflexivity. }
    split; [intros url; split; [discriminate | intros [H _]; discriminate H]|].
    split; [discriminate|].
    split; [intros ? ? _ H; discriminate H|].
    intros s' [= <-]. split.
    + intros [e H]. discriminate H.
    + intros [[e H]|[e H]]; [discriminate H | rewrite Ht in H; discriminate H].
  - split.
    { intros s' u' t'. split; [discriminate|].
      intros ([= <-] & _ & Ht'). rewrite Ht in Ht'. discriminate Ht'. }
    split; [intros url; split; [discriminate | intros [H _]; discriminate H]|].
    split; [discriminate|].
    split; [intros s' e [= <-] [= <-]; right; exact Ht|].
    intros s' [= <-]. split; [intros _; right; exists e2; exact Ht | intros _; eauto].
  - split.
    { intros s' u' t'. split; [discriminate | intros (_ & H & _); discriminate H]. }
    split; [intros url; split; [discriminate | intros [H _]; discriminate H]|].
    split; [discriminate|].
    split; [intros s' e [= <-] [= <-]; left; reflexivity|].
    intros s' [= <-]. split; [intros _; left; exists e1; reflexivity | intros _; eauto].
  - split.
    { intros s' u' t'. split; [discriminate | intros (_ & H & _); discriminate H]. }
    split; [intros url; split; [discriminate | intros [H _]; discriminate H]|].
    split; [discriminate|].
    split.
    { intros s' e [= <-] H. destruct (teams_reject_first _ _ env);
        injection H as <-; [right; exact Ht | left; reflexivity]. }
    intros s' [= <-]. split; [intros _; left; exists e1; reflexivity | intros _; eauto].
Qed.

Lemma layout_outcome_witness :
  (AuthenticatedTeamsDashboardLayout LayoutSample.signed_in).2
  = Rendered (mkSession 10) "admin@acme.io" [mkTeam 1 "Acme" "acme"]
  /\ (AuthenticatedTeamsDashboardLayout LayoutSample.signed_out).2 = Redirected "/signin".
Proof.
  split.
  - apply (proj1 (layout_outcome LayoutSample.signed_in)).
    repeat split.
  - apply (proj1 (proj2 (layout_outcome LayoutSample.signed_out))).
    split; reflexivity.
Defined.

End LayoutOutcome.
